(** * ynab-trading212-sync: the reconciliation engine of [src/worker.ts]

    A shallow embedding of [syncAccount] and its helpers ([parseAmount],
    [parseMoney], [parseT212StockQuantity], [createImportId],
    [parseTransaction]) together with the properties of the specification
    that are about them.

    Conventions of the embedding.
    - A JavaScript string is a [string] of code units below 256.
    - A JavaScript [number] is modelled by its exact mathematical value (a
      rational kept in lowest terms) or one of the non-finite values
      [Infinity], [-Infinity] and [NaN].  The amounts and quantities of this
      program are integers in fixed-point units; inside the safe-integer
      range binary64 arithmetic on them is exact, which is the range the
      model describes.  The sign of zero is not modelled.
    - [undefined] and [null] of an optional field are both [None].
    - The remote collaborators (Trading212, YNAB, the clock) are inputs;
      what the program sends and logs is an explicit list of events. *)

From Stdlib Require Import ZArith NArith QArith Qround Qabs.
From Stdlib Require Import String Ascii List Bool Lia Lqa.
Import ListNotations.

Close Scope Q_scope.
Local Open Scope list_scope.
Local Open Scope string_scope.

(** ** SHA-256 (FIPS 180-4), as used by [crypto.createHash('sha256')] *)

Module Sha256.
Local Open Scope N_scope.

Definition word (x : N) : N := x mod 0x100000000.
Definition add32 (x y : N) : N := word (x + y).
Definition rotr (n x : N) : N := word (N.lor (N.shiftr x n) (N.shiftl x (32 - n))).
Definition not32 (x : N) : N := N.lxor x 0xffffffff.

Definition Ch (x y z : N) : N := N.lxor (N.land x y) (N.land (not32 x) z).
Definition Maj (x y z : N) : N :=
  N.lxor (N.lxor (N.land x y) (N.land x z)) (N.land y z).
Definition Sigma0 (x : N) : N := N.lxor (N.lxor (rotr 2 x) (rotr 13 x)) (rotr 22 x).
Definition Sigma1 (x : N) : N := N.lxor (N.lxor (rotr 6 x) (rotr 11 x)) (rotr 25 x).
Definition sigma0 (x : N) : N := N.lxor (N.lxor (rotr 7 x) (rotr 18 x)) (N.shiftr x 3).
Definition sigma1 (x : N) : N := N.lxor (N.lxor (rotr 17 x) (rotr 19 x)) (N.shiftr x 10).

(** The constants of FIPS 180-4, from their definition: the first 32 bits
    of the fractional parts of the cube roots (for [K]) and of the square
    roots (for [H0]) of the first primes. *)
Definition is_prime (n : nat) : bool :=
  forallb (fun d => negb (Nat.eqb (Nat.modulo n d) 0)) (seq 2 (n - 2)).

Definition primes : list N := map N.of_nat (filter is_prime (seq 2 310)).

Fixpoint cube_root_bits (bits : nat) (n r : N) : N :=
  match bits with
  | O => r
  | S b =>
      let c := r + N.shiftl 1 (N.of_nat b) in
      if c * c * c <=? n then cube_root_bits b n c else cube_root_bits b n r
  end.

Definition cube_root (n : N) : N := cube_root_bits 40 n 0.

Definition K : list N :=
  Eval vm_compute in map (fun p => word (cube_root (N.shiftl p 96))) primes.

Definition initial : list N :=
  Eval vm_compute in map (fun p => word (N.sqrt (N.shiftl p 64))) (firstn 8 primes).

(** The eight working variables, and the chaining value between blocks. *)
Record state := State
  { sa : N; sb : N; sc : N; sd : N; se : N; sf : N; sg : N; sh : N }.

Definition H0 : state :=
  let h i := nth i initial 0 in
  State (h 0%nat) (h 1%nat) (h 2%nat) (h 3%nat) (h 4%nat) (h 5%nat) (h 6%nat) (h 7%nat).

(** Padding: a 1 bit, zeros up to 56 mod 64 bytes, the bit length on 8 bytes. *)
Definition be_bytes (n : nat) (x : N) : list N :=
  map (fun i => (N.shiftr x (8 * N.of_nat i)) mod 256) (rev (seq 0 n)).

Definition pad (msg : list N) : list N :=
  let len := List.length msg in
  let zeros := ((64 + 55 - Nat.modulo len 64) mod 64)%nat in
  (msg ++ [0x80] ++ repeat 0 zeros ++ be_bytes 8 (8 * N.of_nat len))%list.

Fixpoint be_words (bs : list N) : list N :=
  match bs with
  | b0 :: b1 :: b2 :: b3 :: rest =>
      (N.shiftl b0 24 + N.shiftl b1 16 + N.shiftl b2 8 + b3) :: be_words rest
  | _ => []
  end.

(** The message schedule: 16 block words extended to 64. *)
Fixpoint schedule (n : nat) (w : list N) : list N :=
  match n with
  | O => w
  | S n' =>
      let i := List.length w in
      let at_ k := nth (i - k) w 0 in
      schedule n'
        (w ++ [add32 (add32 (add32 (sigma1 (at_ 2%nat)) (at_ 7%nat))
                            (sigma0 (at_ 15%nat))) (at_ 16%nat)])%list
  end.

Definition round (s : state) (kw : N * N) : state :=
  let (k, w) := kw in
  let t1 := add32 (add32 (add32 (add32 (sh s) (Sigma1 (se s)))
                                (Ch (se s) (sf s) (sg s))) k) w in
  let t2 := add32 (Sigma0 (sa s)) (Maj (sa s) (sb s) (sc s)) in
  State (add32 t1 t2) (sa s) (sb s) (sc s) (add32 (sd s) t1) (se s) (sf s) (sg s).

Definition compress (h : state) (block : list N) : state :=
  let w := schedule 48 (be_words block) in
  let s := fold_left round (combine K w) h in
  State (add32 (sa h) (sa s)) (add32 (sb h) (sb s)) (add32 (sc h) (sc s))
        (add32 (sd h) (sd s)) (add32 (se h) (se s)) (add32 (sf h) (sf s))
        (add32 (sg h) (sg s)) (add32 (sh h) (sh s)).

Fixpoint blocks (n : nat) (bs : list N) (h : state) : state :=
  match n with
  | O => h
  | S n' => blocks n' (skipn 64 bs) (compress h (firstn 64 bs))
  end.

Definition digest (msg : list N) : state :=
  let p := pad msg in blocks (Nat.div (List.length p) 64) p H0.

(** [hash.digest('hex')]: 8 words of 8 lower-case hexadecimal digits. *)
Definition hex_digit (d : N) : ascii :=
  ascii_of_N (if d <? 10 then 48 + d else 87 + d).

Definition hex_word (x : N) (tail : string) : string :=
  fold_right (fun i acc => String (hex_digit ((N.shiftr x (4 * N.of_nat i)) mod 16)) acc)
             tail (rev (seq 0 8)).

Definition hex (s : state) : string :=
  hex_word (sa s) (hex_word (sb s) (hex_word (sc s) (hex_word (sd s)
    (hex_word (se s) (hex_word (sf s) (hex_word (sg s) (hex_word (sh s) ""))))))).

Definition bytes_of_string (s : string) : list N :=
  map N_of_ascii (list_ascii_of_string s).

Definition sha256_hex (data : string) : string := hex (digest (bytes_of_string data)).

End Sha256.

(** ** The JavaScript values and built-ins the program uses *)

Module JS.
Local Open Scope Q_scope.
Local Open Scope string_scope.

(** *** Strings *)

Definition startsWith (s p : string) : bool := String.prefix p s.

Fixpoint includes (s : string) (c : ascii) : bool :=
  match s with
  | EmptyString => false
  | String a s' => Ascii.eqb a c || includes s' c
  end.

Fixpoint repeat_char (c : ascii) (n : nat) : string :=
  match n with
  | O => EmptyString
  | S n' => String c (repeat_char c n')
  end.

(** [s.padEnd(n, c)]: nothing is cut when [s] is already longer. *)
Definition padEnd (s : string) (n : nat) (c : ascii) : string :=
  s ++ repeat_char c (n - String.length s).


(** [s.split(sep)] for a one-character separator; never the empty list. *)
Fixpoint split (sep : ascii) (s : string) : list string :=
  match s with
  | EmptyString => [EmptyString]
  | String c s' =>
      if Ascii.eqb c sep then EmptyString :: split sep s'
      else match split sep s' with
           | h :: t => String c h :: t
           | [] => [String c EmptyString]
           end
  end.

(** [s.slice(0, n)]. *)
Definition slice0 (s : string) (n : nat) : string := substring 0 n s.

Fixpoint drop (n : nat) (s : string) : string :=
  match n, s with
  | O, _ => s
  | S n', String _ s' => drop n' s'
  | S _, EmptyString => EmptyString
  end.

(** Truthiness of an optional string: [undefined], [null] and [''] are falsy. *)
Definition truthy (o : option string) : bool :=
  match o with
  | Some s => negb (s =? "")
  | None => false
  end.

(** [o || undefined] on an optional string. *)
Definition or_undefined (o : option string) : option string :=
  if truthy o then o else None.

(** Strict equality of an optional string with a string. *)
Definition opt_eqb (o : option string) (s : string) : bool :=
  match o with
  | Some a => a =? s
  | None => false
  end.

(** A template literal renders a missing value as the word [undefined]. *)
Definition show (o : option string) : string :=
  match o with
  | Some s => s
  | None => "undefined"
  end.

(** *** Decimal digits *)

Definition digit_char (d : N) : ascii := ascii_of_N (48 + d).

Fixpoint digits_of (fuel : nat) (n : N) (acc : string) : string :=
  match fuel with
  | O => acc
  | S fuel' =>
      let acc' := String (digit_char (n mod 10)) acc in
      if (n / 10 =? 0)%N then acc' else digits_of fuel' (n / 10) acc'
  end.

Definition N_toString (n : N) : string :=
  digits_of (S (N.to_nat (N.size n))) n "".

(** The value of a digit in a radix up to 36, as [parseInt] reads it. *)
Definition digit_of (radix : N) (c : ascii) : option N :=
  let n := N_of_ascii c in
  let v := if ((48 <=? n) && (n <=? 57))%N then Some (n - 48)%N
           else if ((97 <=? n) && (n <=? 122))%N then Some (n - 87)%N
           else if ((65 <=? n) && (n <=? 90))%N then Some (n - 55)%N
           else None in
  match v with
  | Some d => if (d <? radix)%N then Some d else None
  | None => None
  end.

(** The longest prefix of digits, as their values. *)
Fixpoint take_digits (radix : N) (s : string) : list N :=
  match s with
  | EmptyString => []
  | String c s' =>
      match digit_of radix c with
      | Some d => d :: take_digits radix s'
      | None => []
      end
  end.

Definition digits_value (radix : N) (ds : list N) : N :=
  fold_left (fun acc d => (acc * radix + d)%N) ds 0%N.

(** *** Numbers *)

Inductive number :=
  | Num (q : Q)
  | Infinity (negative : bool)
  | NaN.

Definition of_Z (z : Z) : number := Num (inject_Z z).

Definition Qis_zero (q : Q) : bool := (Qnum q =? 0)%Z.
Definition Qis_neg (q : Q) : bool := (Qnum q <? 0)%Z.

Definition neg (x : number) : number :=
  match x with
  | Num q => Num (Qred (- q))
  | Infinity s => Infinity (negb s)
  | NaN => NaN
  end.

Definition add (x y : number) : number :=
  match x, y with
  | Num a, Num b => Num (Qred (a + b))
  | Num _, Infinity s | Infinity s, Num _ => Infinity s
  | Infinity s, Infinity t => if Bool.eqb s t then Infinity s else NaN
  | _, _ => NaN
  end.

Definition sub (x y : number) : number := add x (neg y).

Definition mul (x y : number) : number :=
  match x, y with
  | Num a, Num b => Num (Qred (a * b))
  | Num a, Infinity s | Infinity s, Num a =>
      if Qis_zero a then NaN else Infinity (xorb s (Qis_neg a))
  | Infinity s, Infinity t => Infinity (xorb s t)
  | _, _ => NaN
  end.

Definition div (x y : number) : number :=
  match x, y with
  | Num a, Num b =>
      if Qis_zero b then (if Qis_zero a then NaN else Infinity (Qis_neg a))
      else Num (Qred (a / b))
  | Num _, Infinity _ => Num 0
  | Infinity s, Num b => Infinity (xorb s (Qis_neg b))
  | _, _ => NaN
  end.

(** [Math.abs]. *)
Definition Math_abs (x : number) : number :=
  match x with
  | Num q => Num (Qred (Qabs q))
  | Infinity _ => Infinity false
  | NaN => NaN
  end.

(** [Math.round]: the nearest integer, a tie going up. *)
Definition Math_round (x : number) : number :=
  match x with
  | Num q => Num (inject_Z (Qfloor (q + (1 # 2))))
  | _ => x
  end.

(** [x < y]; every comparison with [NaN] is false. *)
Definition lt (x y : number) : bool :=
  match x, y with
  | Num a, Num b => negb (Qle_bool b a)
  | Num _, Infinity s => negb s
  | Infinity s, Num _ => s
  | Infinity s, Infinity t => s && negb t
  | _, _ => false
  end.

Definition gt (x y : number) : bool := lt y x.

Definition le (x y : number) : bool :=
  match x, y with
  | Num a, Num b => Qle_bool a b
  | Num _, Infinity s => negb s
  | Infinity s, Num _ => s
  | Infinity s, Infinity t => s || negb t
  | _, _ => false
  end.

(** [ToNumber] of a possibly missing number: [undefined] becomes [NaN]. *)
Definition ToNumber (o : option number) : number :=
  match o with
  | Some n => n
  | None => NaN
  end.

(** *** Numbers and strings *)

Fixpoint frac_digits (fuel : nat) (r d : N) : string :=
  match fuel with
  | O => EmptyString
  | S fuel' =>
      if (r =? 0)%N then EmptyString
      else String (digit_char (10 * r / d)) (frac_digits fuel' ((10 * r) mod d) d)
  end.

(** [String(x)] in plain decimal notation.  JavaScript prints at most 17
    significant digits and switches to exponent notation from 1e21 and
    below 1e-6; the model prints up to 20 fractional digits, always plain. *)
Definition Number_toString (x : number) : string :=
  match x with
  | NaN => "NaN"
  | Infinity s => if s then "-Infinity" else "Infinity"
  | Num q =>
      let n := Z.to_N (Z.abs (Qnum q)) in
      let d := Npos (Qden q) in
      let f := frac_digits 20 (n mod d) d in
      (if Qis_neg q then "-" else "") ++ N_toString (n / d)
        ++ (if f =? "" then "" else "." ++ f)
  end.


Definition is_space (c : ascii) : bool :=
  let n := N_of_ascii c in
  (((9 <=? n) && (n <=? 13)) || (n =? 32) || (n =? 160))%N.

Fixpoint trim_start (s : string) : string :=
  match s with
  | String c s' => if is_space c then trim_start s' else s
  | EmptyString => s
  end.

Definition strip_sign (s : string) : bool * string :=
  match s with
  | String "-" r => (true, r)
  | String "+" r => (false, r)
  | _ => (false, s)
  end.

(** [parseInt(s)]: leading white space, a sign, an optional [0x], then the
    longest run of digits; [NaN] when there is none. *)
Definition parseInt (s : string) : number :=
  let (negative, s1) := strip_sign (trim_start s) in
  let (radix, s2) :=
    match s1 with
    | String "0" (String "x" r) | String "0" (String "X" r) => (16%N, r)
    | _ => (10%N, s1)
    end in
  match take_digits radix s2 with
  | [] => NaN
  | ds =>
      let v := Z.of_N (digits_value radix ds) in
      of_Z (if negative then - v else v)
  end.

(** The exponent part of a decimal literal: [e], a sign, at least one digit. *)
Definition exponent (s : string) : Z :=
  match s with
  | String "e" r | String "E" r =>
      let (negative, r') := strip_sign r in
      match take_digits 10 r' with
      | [] => 0
      | ds => let v := Z.of_N (digits_value 10 ds) in if negative then - v else v
      end
  | _ => 0
  end.

(** [parseFloat(s)]: the longest prefix that is a decimal literal. *)
Definition parseFloat (s : string) : number :=
  let (negative, s1) := strip_sign (trim_start s) in
  if startsWith s1 "Infinity" then Infinity negative
  else
    let ip := take_digits 10 s1 in
    let s2 := drop (List.length ip) s1 in
    let '(fp, s3) :=
      match s2 with
      | String "." r => let fp := take_digits 10 r in (fp, drop (List.length fp) r)
      | _ => ([], s2)
      end in
    match (ip ++ fp)%list with
    | [] => NaN
    | ds =>
        let m := inject_Z (Z.of_N (digits_value 10 ds)) in
        let e := (exponent s3 - Z.of_nat (List.length fp))%Z in
        let v := (m * Qpower (inject_Z 10) e)%Q in
        Num (Qred (if negative then - v else v))
    end.

(** *** [Map], with its insertion order *)

Fixpoint Map_get {V : Type} (m : list (string * V)) (k : string) : option V :=
  match m with
  | [] => None
  | (k', v) :: m' => if k' =? k then Some v else Map_get m' k
  end.

Definition Map_has {V : Type} (m : list (string * V)) (k : string) : bool :=
  match Map_get m k with
  | Some _ => true
  | None => false
  end.

Fixpoint Map_set {V : Type} (m : list (string * V)) (k : string) (v : V)
  : list (string * V) :=
  match m with
  | [] => [(k, v)]
  | (k', v') :: m' => if k' =? k then (k, v) :: m' else (k', v') :: Map_set m' k v
  end.

(** [new Map(entries)]. *)
Definition Map_of {V : Type} (entries : list (string * V)) : list (string * V) :=
  fold_left (fun m kv => Map_set m (fst kv) (snd kv)) entries [].

End JS.

(** ** [src/worker.ts] *)

Module Worker.
Import JS.

(** *** Constants and the import identity *)

Definition IMPORT_ID_VERSION : N := 14.
Definition IMPORT_PREFIX : string := "T212-".
Definition VERSIONED_IMPORT_PREFIX : string :=
  IMPORT_PREFIX ++ "v" ++ N_toString IMPORT_ID_VERSION ++ ":".

Definition createImportId (data : string) : string :=
  slice0 (VERSIONED_IMPORT_PREFIX ++ Sha256.sha256_hex data) 36.

(** *** The fixed-point codec *)

(** The [string | number] argument, rendered by the template literal. *)
Definition template (amount : string + number) : string :=
  match amount with
  | inl s => s
  | inr n => Number_toString n
  end.

Definition parseAmount (amount : string + number) (inputPrecision : nat)
    (outputFactor : number) : number :=
  let parts := split "." (template amount) in
  let fixedAmount := hd "" parts in
  let decimalAmount := nth 1 parts "" in
  mul (parseInt (fixedAmount ++ padEnd decimalAmount inputPrecision "0")) outputFactor.

Definition parseMoney (amount : string + number) : number :=
  parseAmount amount 2 (of_Z 10).

Definition parseT212StockQuantity (amount : string + number) : number :=
  parseAmount amount 10 (of_Z 1).

(** *** The export records and their schema *)

Inductive Trading212Action :=
  | Deposit | Withdrawal | MarketBuy | MarketSell | Dividend
  | InterestOnCash | LendingInterest | CurrencyConversion | NewCardCost.

Definition action_name (a : Trading212Action) : string :=
  match a with
  | Deposit => "Deposit"
  | Withdrawal => "Withdrawal"
  | MarketBuy => "Market buy"
  | MarketSell => "Market sell"
  | Dividend => "Dividend (Dividend)"
  | InterestOnCash => "Interest on cash"
  | LendingInterest => "Lending interest"
  | CurrencyConversion => "Currency conversion"
  | NewCardCost => "New card cost"
  end.

Definition all_actions : list Trading212Action :=
  [Deposit; Withdrawal; MarketBuy; MarketSell; Dividend;
   InterestOnCash; LendingInterest; CurrencyConversion; NewCardCost].

(** [z.nativeEnum(Trading212Action)]. *)
Definition nativeEnum (s : string) : option Trading212Action :=
  find (fun a => action_name a =? s) all_actions.

Definition action_eqb (a b : Trading212Action) : bool :=
  action_name a =? action_name b.

Definition optionalString (val : string) : option string :=
  if val =? "" then None else Some val.
Definition optionalMoney (val : string) : option number :=
  if val =? "" then None else Some (parseMoney (inl val)).
Definition optionalFloat (val : string) : option number :=
  if val =? "" then None else Some (parseFloat val).

(** A dayjs instant, through the two renderings the program reads:
    the template literal and [utc().format('YYYY-MM-DD')]. *)
Record Dayjs := { dayjs_toString : string; dayjs_utc_date : string }.

(** One row of the export as csv-parse hands it over: a column that the
    header does not have is [None]. *)
Record CsvRecord := {
  col_Action : option string;
  col_Time : option string;
  col_ISIN : option string;
  col_Ticker : option string;
  col_Name : option string;
  col_No_of_shares : option string;
  col_Price_per_share : option string;
  col_Currency_Price_per_share : option string;
  col_Exchange_rate : option string;
  col_Result : option string;
  col_Currency_Result : option string;
  col_Total : option string;
  col_Currency_Total : option string;
  col_Withholding_tax : option string;
  col_Currency_Withholding_tax : option string;
  col_Notes : option string;
  col_ID : option string;
  col_Currency_conversion_from_amount : option string;
  col_Currency_Currency_conversion_from_amount : option string;
  col_Currency_conversion_to_amount : option string;
  col_Currency_Currency_conversion_to_amount : option string;
  col_Currency_conversion_fee : option string;
  col_Currency_Currency_conversion_fee : option string
}.

Record Trading212Transaction := {
  action : Trading212Action;
  timestamp : Dayjs;
  isin : option string;
  ticker : option string;
  name : option string;
  shareCount : option number;
  pricePerShare : option number;
  pricePerShareCurrency : option string;
  exchangeRate : option number;
  result : option number;
  resultCurrency : option string;
  total : number;
  totalCurrency : option string;
  withholdingTax : option number;
  withholdingTaxCurrency : option string;
  notes : option string;
  id : string;
  conversionFromAmount : option number;
  conversionFromCurrency : option string;
  conversionToAmount : option number;
  conversionToCurrency : option string;
  conversionFee : option number;
  conversionFeeCurrency : option string
}.

Definition bind {A B : Type} (o : option A) (f : A -> option B) : option B :=
  match o with
  | Some a => f a
  | None => None
  end.

Notation "x <- o ;; k" := (bind o (fun x => k))
  (at level 61, o at next level, right associativity).

Section Parser.

(** [dayjs.utc], of the dayjs library. *)
Variable dayjs_utc : string -> Dayjs.

(** [Trading212TransactionSchema.parse]: [None] is the thrown ZodError. *)
Definition parseTransaction (data : CsvRecord) : option Trading212Transaction :=
  a <- bind (col_Action data) nativeEnum ;;
  time <- col_Time data ;;
  i <- col_ISIN data ;;
  tk <- col_Ticker data ;;
  nm <- col_Name data ;;
  shares <- col_No_of_shares data ;;
  pps <- col_Price_per_share data ;;
  ppsc <- col_Currency_Price_per_share data ;;
  rate <- col_Exchange_rate data ;;
  res <- col_Result data ;;
  resc <- col_Currency_Result data ;;
  tot <- col_Total data ;;
  totc <- col_Currency_Total data ;;
  wht <- col_Withholding_tax data ;;
  whtc <- col_Currency_Withholding_tax data ;;
  nt <- col_Notes data ;;
  ident <- col_ID data ;;
  cfa <- col_Currency_conversion_from_amount data ;;
  cfc <- col_Currency_Currency_conversion_from_amount data ;;
  cta <- col_Currency_conversion_to_amount data ;;
  ctc <- col_Currency_Currency_conversion_to_amount data ;;
  fee <- col_Currency_conversion_fee data ;;
  feec <- col_Currency_Currency_conversion_fee data ;;
  Some {|
    action := a;
    timestamp := dayjs_utc time;
    isin := optionalString i;
    ticker := optionalString tk;
    name := optionalString nm;
    shareCount := optionalFloat shares;
    pricePerShare := optionalMoney pps;
    pricePerShareCurrency := optionalString ppsc;
    exchangeRate := optionalFloat rate;
    result := optionalMoney res;
    resultCurrency := optionalString resc;
    total := parseMoney (inl tot);
    totalCurrency := optionalString totc;
    withholdingTax := optionalMoney wht;
    withholdingTaxCurrency := optionalString whtc;
    notes := optionalString nt;
    id := ident;
    conversionFromAmount := optionalMoney cfa;
    conversionFromCurrency := optionalString cfc;
    conversionToAmount := optionalMoney cta;
    conversionToCurrency := optionalString ctc;
    conversionFee := optionalMoney fee;
    conversionFeeCurrency := optionalString feec
  |}.

(** [records.map(parseTransaction)]: the first failure aborts. *)
Fixpoint parseTransactions (records : list CsvRecord)
  : option (list Trading212Transaction) :=
  match records with
  | [] => Some []
  | r :: rest =>
      t <- parseTransaction r ;;
      ts <- parseTransactions rest ;;
      Some (t :: ts)
  end.

End Parser.

(** *** Ledger entries *)

Inductive TransactionClearedStatus := Cleared | Uncleared | Reconciled.

Record SubTransaction := {
  sub_amount : number;
  sub_payee_name : option string;
  sub_payee_id : option string;
  sub_category_id : option string;
  sub_memo : option string
}.

(** An entry of the ledger: one that exists (it has [entry_id]) or one to
    be saved ([ynab.NewTransaction], [ynab.SaveTransactionWithIdOrImportId]). *)
Record Transaction := {
  entry_id : option string;
  account_id : string;
  date : string;
  cleared : TransactionClearedStatus;
  amount : option number;
  payee_name : option string;
  payee_id : option string;
  category_id : option string;
  memo : option string;
  approved : option bool;
  flag_color : option string;
  import_id : option string;
  subtransactions : option (list SubTransaction)
}.

Record Payee := { p_id : string; p_name : string }.

Record Instrument := {
  i_isin : string; i_ticker : string; i_name : string; i_shortName : string
}.

Record OpenPosition := {
  op_ticker : string; op_quantity : string + number; op_ppl : string + number
}.

Record T212Position := { t212_quantity : number; t212_ppl : number }.

Record Position := {
  quantity : number;
  totalAmount : number;
  unclearedId : option string
}.

Record Env := {
  BUDGET : string;
  ACCOUNT : string;
  STOCK_CATEGORY_ID : string;
  DIVIDEND_CATEGORY_ID : string;
  CONVERSION_FEE_CATEGORY_ID : string
}.

(** What the five concurrent fetches return. *)
Record Fetched := {
  accountCurrency : string;
  instruments : list Instrument;
  openPositions : list OpenPosition;
  payees : list Payee;
  existingTransactions : list Transaction
}.

Definition opt_startsWith (o : option string) (p : string) : bool :=
  match o with
  | Some s => startsWith s p
  | None => false
  end.

Definition show_number (o : option number) : string :=
  match o with
  | Some n => Number_toString n
  | None => "undefined"
  end.

Definition category (id_ : string) : option string :=
  or_undefined (Some id_).

Definition find_payee_id (ps : list Payee) (payee : string) : option string :=
  option_map p_id (find (fun p => p_name p =? payee) ps).

(** *** Classification: the body of the loop over the export *)

Definition new_transaction (env : Env) (date_ : string) (import_id_ : string)
    (amount_ : option number) (payee_name_ : string) (memo_ : option string)
  : Transaction :=
  {| entry_id := None; account_id := ACCOUNT env; date := date_;
     cleared := Cleared; amount := amount_; payee_name := Some payee_name_;
     payee_id := None; category_id := None; memo := memo_; approved := None;
     flag_color := None; import_id := Some import_id_;
     subtransactions := None |}.

Definition with_category (c : option string) (t : Transaction) : Transaction :=
  {| entry_id := entry_id t; account_id := account_id t; date := date t;
     cleared := cleared t; amount := amount t; payee_name := payee_name t;
     payee_id := payee_id t; category_id := c; memo := memo t;
     approved := approved t; flag_color := flag_color t;
     import_id := import_id t; subtransactions := subtransactions t |}.

Definition with_payee_id (p : option string) (t : Transaction) : Transaction :=
  {| entry_id := entry_id t; account_id := account_id t; date := date t;
     cleared := cleared t; amount := amount t; payee_name := payee_name t;
     payee_id := p; category_id := category_id t; memo := memo t;
     approved := approved t; flag_color := flag_color t;
     import_id := import_id t; subtransactions := subtransactions t |}.

Definition with_approved (a : bool) (t : Transaction) : Transaction :=
  {| entry_id := entry_id t; account_id := account_id t; date := date t;
     cleared := cleared t; amount := amount t; payee_name := payee_name t;
     payee_id := payee_id t; category_id := category_id t; memo := memo t;
     approved := Some a; flag_color := flag_color t;
     import_id := import_id t; subtransactions := subtransactions t |}.

Definition with_flag_color (c : string) (t : Transaction) : Transaction :=
  {| entry_id := entry_id t; account_id := account_id t; date := date t;
     cleared := cleared t; amount := amount t; payee_name := payee_name t;
     payee_id := payee_id t; category_id := category_id t; memo := memo t;
     approved := approved t; flag_color := Some c;
     import_id := import_id t; subtransactions := subtransactions t |}.

Definition with_subtransactions (subs : list SubTransaction) (t : Transaction)
  : Transaction :=
  {| entry_id := entry_id t; account_id := account_id t; date := date t;
     cleared := cleared t; amount := amount t; payee_name := payee_name t;
     payee_id := payee_id t; category_id := category_id t; memo := memo t;
     approved := approved t; flag_color := flag_color t;
     import_id := import_id t; subtransactions := Some subs |}.

(** The import identity of a source transaction. *)
Definition import_id_of (t : Trading212Transaction) : string :=
  createImportId (dayjs_toString (timestamp t) ++ ":" ++ id t).

(** The stock memo of trades and dividends. *)
Definition stock_memo (t : Trading212Transaction) : string :=
  show_number (shareCount t) ++ "x " ++ show (ticker t) ++ " [" ++ show (isin t) ++ "]".

(** What one turn of the loop logs and pushes onto [transactionsToAdd]. *)
Definition classify (env : Env) (f : Fetched) (t : Trading212Transaction)
  : list string * list Transaction :=
  let date_ := dayjs_utc_date (timestamp t) in
  let import_id_ := import_id_of t in
  if existsb (fun e => opt_eqb (import_id e) import_id_) (existingTransactions f)
  then ([], [])
  else if truthy (totalCurrency t) && negb (opt_eqb (totalCurrency t) (accountCurrency f))
  then (["Skipping transaction " ++ id t
           ++ " because it is in a different currency (" ++ show (totalCurrency t)
           ++ ") than the account (" ++ accountCurrency f ++ ")"], [])
  else
    let entry := new_transaction env date_ import_id_ in
    match action t with
    | Deposit | Withdrawal =>
        ([], [entry (Some (total t)) (action_name (action t)) (or_undefined (notes t))])
    | InterestOnCash | LendingInterest =>
        ([], [with_approved (action_eqb (action t) InterestOnCash)
                (with_flag_color "purple"
                   (entry (Some (total t)) "Interest"
                      (if action_eqb (action t) LendingInterest
                       then Some "Lending interest" else None)))])
    | MarketBuy | MarketSell =>
        let isInflow := action_eqb (action t) MarketSell in
        let amount_ := mul (Math_abs (total t)) (of_Z (if isInflow then 1 else -1)) in
        let conversionFee_ :=
          match conversionFee t with Some fee => fee | None => of_Z 0 end in
        let stockAmount := add amount_ conversionFee_ in
        let payee_name_ := "Stock: " ++ show (name t) in
        let payee_id_ := find_payee_id (payees f) payee_name_ in
        let memo_ := stock_memo t in
        let transaction :=
          with_approved true
            (with_payee_id payee_id_
               (with_category (category (STOCK_CATEGORY_ID env))
                  (entry (Some amount_) payee_name_ (Some memo_)))) in
        ([], [if gt conversionFee_ (of_Z 0)
              then with_subtransactions
                     [ {| sub_amount := stockAmount;
                          sub_payee_name := Some payee_name_;
                          sub_payee_id := payee_id_;
                          sub_category_id := category (STOCK_CATEGORY_ID env);
                          sub_memo := Some memo_ |};
                       {| sub_amount := neg conversionFee_;
                          sub_payee_name := Some "Trading 212";
                          sub_payee_id := None;
                          sub_category_id := category (CONVERSION_FEE_CATEGORY_ID env);
                          sub_memo := Some "Currency conversion fee" |} ]
                     transaction
              else transaction])
    | Dividend =>
        let payee_name_ := "Stock: " ++ show (name t) in
        let payee_id_ := find_payee_id (payees f) payee_name_ in
        let memo_ := "Dividend - " ++ stock_memo t in
        ([], [with_payee_id payee_id_
                (with_category (category (DIVIDEND_CATEGORY_ID env))
                   (entry (Some (total t)) payee_name_ (Some memo_)))])
    | CurrencyConversion =>
        if opt_eqb (conversionFromCurrency t) (accountCurrency f)
        then ([], [with_approved true
                     (entry (Some (neg (ToNumber (conversionFromAmount t))))
                        ("Exchanged to " ++ show (conversionToCurrency t))
                        (or_undefined (notes t)))])
        else if opt_eqb (conversionToCurrency t) (accountCurrency f)
        then ([], [with_approved true
                     (entry (conversionToAmount t)
                        ("Exchanged from " ++ show (conversionFromCurrency t))
                        (or_undefined (notes t)))])
        else (["Skipping currency conversion transaction " ++ id t
                 ++ " because it is not in the account currency ("
                 ++ accountCurrency f ++ ")"], [])
    | NewCardCost =>
        ([], [entry (Some (total t)) "Trading 212" (Some "New card")])
    end.

(** The whole loop: the log lines and [transactionsToAdd], in order. *)
Fixpoint classify_all (env : Env) (f : Fetched) (ts : list Trading212Transaction)
  : list string * list Transaction :=
  match ts with
  | [] => ([], [])
  | t :: rest =>
      let (logs, adds) := classify env f t in
      let (logs', adds') := classify_all env f rest in
      ((logs ++ logs')%list, (adds ++ adds')%list)
  end.

(** *** Position replay *)

Inductive Error :=
  | ZodError
    (** a record of the export does not pass the schema *)
  | OtherVersionError (found : option string)
    (** [Found other version prefix (...) of T212 sync not equal to current version] *)
  | MemoError (memo_ : option string)
    (** [Could not parse memo: ...] *)
  | NoT212PositionError (ticker_ isin_ : string).
    (** [No t212 position for ticker [isin]] *)

Inductive Result (A : Type) :=
  | Ok (a : A)
  | Throw (e : Error).
Arguments Ok {A} a.
Arguments Throw {A} e.

Definition is_digit_or_dot (c : ascii) : bool :=
  match digit_of 10 c with
  | Some _ => true
  | None => Ascii.eqb c "."
  end.

Definition is_line_terminator (c : ascii) : bool :=
  let n := N_of_ascii c in ((n =? 10) || (n =? 13))%N.

Fixpoint no_line_terminator (s : string) : bool :=
  match s with
  | EmptyString => true
  | String c s' => negb (is_line_terminator c) && no_line_terminator s'
  end.

(** The longest prefix in a character class, and what follows it. *)
Fixpoint span (p : ascii -> bool) (s : string) : string * string :=
  match s with
  | String c s' =>
      if p c then let (a, b) := span p s' in (String c a, b) else (EmptyString, s)
  | EmptyString => (EmptyString, EmptyString)
  end.

(** [\[(.*?)\]$] at the head of [s]: the lazy group has to reach the
    bracket that closes the string. *)
Definition bracketed (s : string) : option string :=
  match s with
  | String "[" r =>
      let n := String.length r in
      if match String.get (n - 1) r with
         | Some c => Ascii.eqb c "]"
         | None => false
         end && no_line_terminator (substring 0 (n - 1) r)
      then Some (substring 0 (n - 1) r) else None
  | _ => None
  end.

(** [.*\[(.*?)\]$]: the greedy dot first takes one more character, and
    gives it back when the rest does not match. *)
Fixpoint dots_bracketed (s : string) : option string :=
  match s with
  | EmptyString => None
  | String c s' =>
      match (if is_line_terminator c then None else dots_bracketed s') with
      | Some g => Some g
      | None => bracketed s
      end
  end.

(** [memo.match(/^([\d.]+)x.+\[(.*?)\]$/)]: the two groups.  The letter x
    is outside the class of the first group, so the group is the whole
    run of digits and dots at the head of the memo. *)
Definition match_memo (m : string) : option (string * string) :=
  match span is_digit_or_dot m with
  | (String c g1, String "x" (String d rest)) =>
      if is_line_terminator d then None
      else option_map (fun g2 => (String c g1, g2)) (dots_bracketed rest)
  | _ => None
  end.

(** The amount the replay reads: the stock leg of a split entry. *)
Definition transactionAmount (t : Transaction) : option number :=
  match subtransactions t with
  | Some (sub0 :: subs) =>
      match find (fun sub => match sub_memo sub with
                             | Some m => includes m "x"
                             | None => false
                             end) (sub0 :: subs) with
      | Some stockTransaction => Some (sub_amount stockTransaction)
      | None => amount t
      end
  | _ => amount t
  end.

Definition new_position : Position :=
  {| quantity := of_Z 0; totalAmount := of_Z 0; unclearedId := None |}.

(** The filter at the head of the replay loop: entries that are skipped. *)
Definition not_replayed (t : Transaction) : bool :=
  negb (opt_startsWith (payee_name t) "Stock:")
  || negb (opt_startsWith (import_id t) VERSIONED_IMPORT_PREFIX)
  || opt_startsWith (memo t) "Dividend ".

(** What a replayed entry does to the position of its security. *)
Definition update_position (position : Position) (t : Transaction) (qty : number)
  : Position :=
  match cleared t with
  | Cleared =>
      let transactionAmount_ := ToNumber (transactionAmount t) in
      if gt transactionAmount_ (of_Z 0) then
        let proportionSold := div qty (quantity position) in
        {| quantity := sub (quantity position) qty;
           totalAmount :=
             Math_round (mul (totalAmount position) (sub (of_Z 1) proportionSold));
           unclearedId := unclearedId position |}
      else
        {| quantity := add (quantity position) qty;
           totalAmount := add (totalAmount position) (Math_abs transactionAmount_);
           unclearedId := unclearedId position |}
  | Uncleared =>
      match entry_id t with
      | Some i =>
          {| quantity := quantity position; totalAmount := totalAmount position;
             unclearedId := Some i |}
      | None => position
      end
  | Reconciled => position
  end.

(** One turn of the replay loop on [ynabPositions]. *)
Definition replay_entry (ynabPositions : list (string * Position)) (t : Transaction)
  : Result (list (string * Position)) :=
  if not_replayed t then Ok ynabPositions
  else
    match bind (memo t) match_memo with
    | None => Throw (MemoError (memo t))
    | Some (shares, isin_) =>
        let qty := parseT212StockQuantity (inl shares) in
        let position :=
          match Map_get ynabPositions isin_ with
          | Some p => p
          | None => new_position
          end in
        Ok (Map_set ynabPositions isin_ (update_position position t qty))
    end.

Fixpoint replay (ynabPositions : list (string * Position)) (ts : list Transaction)
  : Result (list (string * Position)) :=
  match ts with
  | [] => Ok ynabPositions
  | t :: rest =>
      match replay_entry ynabPositions t with
      | Ok ynabPositions' => replay ynabPositions' rest
      | Throw e => Throw e
      end
  end.

(** *** The mark-to-market entries *)

Definition t212Positions_of (ops : list OpenPosition) : list (string * T212Position) :=
  Map_of (map (fun p => (op_ticker p,
                         {| t212_quantity := parseT212StockQuantity (op_quantity p);
                            t212_ppl := parseMoney (op_ppl p) |})) ops).

(** What one turn of the second loop does: nothing, a create or an update. *)
Inductive Mark :=
  | Skip
  | ToAdd (t : Transaction)
  | ToUpdate (t : Transaction).

Definition mark_position (env : Env) (today : string) (f : Fetched)
    (t212Positions : list (string * T212Position))
    (isin_ : string) (ynabPosition : Position) : Result Mark :=
  if le (quantity ynabPosition) (of_Z 0) then Ok Skip
  else
    match find (fun i => (i_isin i =? isin_) && Map_has t212Positions (i_ticker i))
               (instruments f) with
    | None => Ok Skip
    | Some instrument =>
        match Map_get t212Positions (i_ticker instrument) with
        | None => Throw (NoT212PositionError (i_ticker instrument) isin_)
        | Some t212Position =>
            let ynabPpl :=
              Math_round (mul (div (quantity ynabPosition) (t212_quantity t212Position))
                              (t212_ppl t212Position)) in
            let currentValue := add (totalAmount ynabPosition) ynabPpl in
            let payee_name_ := "Stock: " ++ i_name instrument in
            let payee_id_ := find_payee_id (payees f) payee_name_ in
            let transaction id_ import_id_ :=
              {| entry_id := id_; account_id := ACCOUNT env; date := today;
                 cleared := Uncleared; amount := Some currentValue;
                 payee_name := Some payee_name_; payee_id := payee_id_;
                 category_id := category (STOCK_CATEGORY_ID env);
                 memo := Some (Number_toString
                                 (div (quantity ynabPosition) (of_Z (10 ^ 10)))
                               ++ "x " ++ i_shortName instrument
                               ++ " [" ++ isin_ ++ "]");
                 approved := Some true; flag_color := None;
                 import_id := import_id_; subtransactions := None |} in
            if truthy (unclearedId ynabPosition)
            then Ok (ToUpdate (transaction (unclearedId ynabPosition) None))
            else Ok (ToAdd (transaction None
                       (Some (createImportId
                                (isin_ ++ ":" ++ today ++ ":"
                                 ++ Number_toString currentValue)))))
        end
    end.

(** The second loop: what it appends to the two lists. *)
Fixpoint mark_all (env : Env) (today : string) (f : Fetched)
    (t212Positions : list (string * T212Position))
    (ynabPositions : list (string * Position))
  : Result (list Transaction * list Transaction) :=
  match ynabPositions with
  | [] => Ok ([], [])
  | (isin_, ynabPosition) :: rest =>
      match mark_position env today f t212Positions isin_ ynabPosition with
      | Throw e => Throw e
      | Ok m =>
          match mark_all env today f t212Positions rest with
          | Throw e => Throw e
          | Ok (adds, updates) =>
              Ok (match m with
                  | Skip => (adds, updates)
                  | ToAdd t => (t :: adds, updates)
                  | ToUpdate t => (adds, t :: updates)
                  end)
          end
      end
  end.

(** *** The orchestrator *)

(** What a run does to the outside: log lines and calls to the ledger. *)
Inductive Event :=
  | ConsoleLog (message : string)
  | CreateTransactions (budget : string) (transactions : list Transaction)
  | UpdateTransactions (budget : string) (transactions : list Transaction).

Inductive Outcome :=
  | Resolved
  | Rejected (e : Error).

(** The version check: the first entry of another version. *)
Definition otherVersion (existing : list Transaction) : option Transaction :=
  find (fun t => opt_startsWith (import_id t) IMPORT_PREFIX
                 && negb (opt_startsWith (import_id t) VERSIONED_IMPORT_PREFIX))
       existing.

(** [syncAccount] once the export is parsed and the fetches are joined. *)
Definition reconcile (env : Env) (today : string)
    (trading212Transactions : list Trading212Transaction) (f : Fetched)
  : list Event * Outcome :=
  match otherVersion (existingTransactions f) with
  | Some other => ([], Rejected (OtherVersionError (import_id other)))
  | None =>
      let (logs, transactionsToAdd) := classify_all env f trading212Transactions in
      let events := map ConsoleLog logs in
      match replay [] (existingTransactions f ++ transactionsToAdd)%list with
      | Throw e => (events, Rejected e)
      | Ok ynabPositions =>
          match mark_all env today f (t212Positions_of (openPositions f))
                         ynabPositions with
          | Throw e => (events, Rejected e)
          | Ok (adds, transactionsToUpdate) =>
              let transactionsToAdd := (transactionsToAdd ++ adds)%list in
              ((events
                ++ match transactionsToAdd with
                   | [] => []
                   | _ => [CreateTransactions (BUDGET env) transactionsToAdd]
                   end
                ++ match transactionsToUpdate with
                   | [] => []
                   | _ => [UpdateTransactions (BUDGET env) transactionsToUpdate]
                   end)%list, Resolved)
          end
      end
  end.

(** [syncAccount]: [records] is the parsed CSV text of the export, [f] what
    the fetches return when they are reached. *)
Definition syncAccount (dayjs_utc : string -> Dayjs) (env : Env) (today : string)
    (records : list CsvRecord) (f : Fetched) : list Event * Outcome :=
  match parseTransactions dayjs_utc records with
  | None => ([], Rejected ZodError)
  | Some trading212Transactions => reconcile env today trading212Transactions f
  end.

End Worker.

(** ** Notions of the specification *)

Module Spec.
Import JS Worker.

(** The transaction passes the pre-filter of the loop: it is not yet in
    the ledger and it is in the currency of the account, so the loop
    dispatches on its action. *)
Definition dispatched (f : Fetched) (t : Trading212Transaction) : Prop :=
  existsb (fun e => opt_eqb (import_id e) (import_id_of t)) (existingTransactions f)
  = false
  /\ truthy (totalCurrency t) && negb (opt_eqb (totalCurrency t) (accountCurrency f))
     = false.

Fixpoint all_digits (s : string) : bool :=
  match s with
  | EmptyString => true
  | String c s' =>
      match digit_of 10 c with
      | Some _ => all_digits s'
      | None => false
      end
  end.

Definition sign (negative : bool) : string := if negative then "-" else "".





(** The position the replay holds for a security: the one of the map, or
    a fresh one. *)
Definition held (ynabPositions : list (string * Position)) (isin_ : string) : Position :=
  match Map_get ynabPositions isin_ with
  | Some p => p
  | None => new_position
  end.

(** The entry is replayed as a cleared trade of the security [isin_]. *)
Definition cleared_trade_of (isin_ : string) (t : Transaction) : bool :=
  negb (not_replayed t)
  && match bind (memo t) match_memo with
     | Some (_, i) => i =? isin_
     | None => false
     end
  && match cleared t with
     | Cleared => true
     | _ => false
     end.

End Spec.

(** ** Notions for the rest of the code *)

Module Cover.
Import JS Worker.

(** The columns of a record that the schema reads, in its order. *)
Definition columns (data : CsvRecord) : list (option string) :=
  [ col_Action data; col_Time data; col_ISIN data; col_Ticker data; col_Name data;
    col_No_of_shares data; col_Price_per_share data;
    col_Currency_Price_per_share data; col_Exchange_rate data; col_Result data;
    col_Currency_Result data; col_Total data; col_Currency_Total data;
    col_Withholding_tax data; col_Currency_Withholding_tax data; col_Notes data;
    col_ID data; col_Currency_conversion_from_amount data;
    col_Currency_Currency_conversion_from_amount data;
    col_Currency_conversion_to_amount data;
    col_Currency_Currency_conversion_to_amount data;
    col_Currency_conversion_fee data; col_Currency_Currency_conversion_fee data ].

Definition present (o : option string) : bool :=
  match o with
  | Some _ => true
  | None => false
  end.

(** The action is a market buy or a market sell. *)
Definition is_trade (a : Trading212Action) : bool :=
  match a with
  | MarketBuy | MarketSell => true
  | _ => false
  end.

(** An event of a run that is a call to the ledger. *)
Definition is_call (e : Event) : bool :=
  match e with
  | ConsoleLog _ => false
  | _ => true
  end.

(** The three ways in which the loop over the export drops a transaction. *)
Definition already_imported (f : Fetched) (t : Trading212Transaction) : bool :=
  existsb (fun e => opt_eqb (import_id e) (import_id_of t)) (existingTransactions f).

Definition foreign_total (f : Fetched) (t : Trading212Transaction) : bool :=
  truthy (totalCurrency t) && negb (opt_eqb (totalCurrency t) (accountCurrency f)).

Definition foreign_conversion (f : Fetched) (t : Trading212Transaction) : bool :=
  match action t with
  | CurrencyConversion =>
      negb (opt_eqb (conversionFromCurrency t) (accountCurrency f))
      && negb (opt_eqb (conversionToCurrency t) (accountCurrency f))
  | _ => false
  end.


End Cover.

(** ** Sample data *)

Module Samples.
Import JS Worker.

Definition env : Env :=
  {| BUDGET := "budget-1"; ACCOUNT := "account-1"; STOCK_CATEGORY_ID := "cat-stock";
     DIVIDEND_CATEGORY_ID := ""; CONVERSION_FEE_CATEGORY_ID := "cat-fee" |}.

(** A stand-in for [dayjs.utc] on the timestamps of the export
    ([YYYY-MM-DD HH:mm:ss]): the date is the first ten characters. *)
Definition dayjs_utc (time : string) : Dayjs :=
  {| dayjs_toString := time; dayjs_utc_date := substring 0 10 time |}.

Definition record (action_ shares total_ currency fee : string) : CsvRecord :=
  {| col_Action := Some action_;
     col_Time := Some "2024-03-05 14:30:00";
     col_ISIN := Some "US0378331005";
     col_Ticker := Some "AAPL";
     col_Name := Some "Apple";
     col_No_of_shares := Some shares;
     col_Price_per_share := Some "";
     col_Currency_Price_per_share := Some "";
     col_Exchange_rate := Some "";
     col_Result := Some "";
     col_Currency_Result := Some "";
     col_Total := Some total_;
     col_Currency_Total := Some currency;
     col_Withholding_tax := Some "";
     col_Currency_Withholding_tax := Some "";
     col_Notes := Some "";
     col_ID := Some "EOF123";
     col_Currency_conversion_from_amount := Some "";
     col_Currency_Currency_conversion_from_amount := Some "";
     col_Currency_conversion_to_amount := Some "";
     col_Currency_Currency_conversion_to_amount := Some "";
     col_Currency_conversion_fee := Some fee;
     col_Currency_Currency_conversion_fee := Some "" |}.

Definition source (action_ : Trading212Action) (total_ : number)
    (fee : option number) : Trading212Transaction :=
  {| action := action_;
     timestamp := dayjs_utc "2024-03-05 14:30:00";
     isin := Some "US0378331005"; ticker := Some "AAPL"; name := Some "Apple";
     shareCount := Some (parseFloat "10");
     pricePerShare := None; pricePerShareCurrency := None; exchangeRate := None;
     result := None; resultCurrency := None;
     total := total_; totalCurrency := Some "GBP";
     withholdingTax := None; withholdingTaxCurrency := None;
     notes := None; id := "EOF123";
     conversionFromAmount := None; conversionFromCurrency := None;
     conversionToAmount := None; conversionToCurrency := None;
     conversionFee := fee; conversionFeeCurrency := None |}.

(** A market buy of which the export has no share count. *)
Definition trade_without_shares : Trading212Transaction :=
  {| action := MarketBuy;
     timestamp := dayjs_utc "2024-03-05 14:30:00";
     isin := Some "US0378331005"; ticker := Some "AAPL"; name := Some "Apple";
     shareCount := None;
     pricePerShare := None; pricePerShareCurrency := None; exchangeRate := None;
     result := None; resultCurrency := None;
     total := of_Z (-1000000); totalCurrency := Some "GBP";
     withholdingTax := None; withholdingTaxCurrency := None;
     notes := None; id := "EOF789";
     conversionFromAmount := None; conversionFromCurrency := None;
     conversionToAmount := None; conversionToCurrency := None;
     conversionFee := None; conversionFeeCurrency := None |}.

(** A currency conversion with the amounts of both legs missing. *)
Definition conversion (from to : string) : Trading212Transaction :=
  {| action := CurrencyConversion;
     timestamp := dayjs_utc "2024-03-05 14:30:00";
     isin := None; ticker := None; name := None; shareCount := None;
     pricePerShare := None; pricePerShareCurrency := None; exchangeRate := None;
     result := None; resultCurrency := None;
     total := of_Z 0; totalCurrency := None;
     withholdingTax := None; withholdingTaxCurrency := None;
     notes := None; id := "EOF456";
     conversionFromAmount := None; conversionFromCurrency := Some from;
     conversionToAmount := None; conversionToCurrency := Some to;
     conversionFee := None; conversionFeeCurrency := None |}.

(** A stock entry of the ledger. *)
Definition stock_entry (id_ import_id_ : string) (status : TransactionClearedStatus)
    (amount_ : Z) (memo_ : string) : Transaction :=
  {| entry_id := Some id_; account_id := "account-1"; date := "2024-03-05";
     cleared := status; amount := Some (of_Z amount_);
     payee_name := Some "Stock: Apple"; payee_id := None; category_id := None;
     memo := Some memo_; approved := Some true; flag_color := None;
     import_id := Some import_id_; subtransactions := None |}.

Definition fetched (existing : list Transaction) : Fetched :=
  {| accountCurrency := "GBP";
     instruments :=
       [ {| i_isin := "US0378331005"; i_ticker := "AAPL_US_EQ";
            i_name := "Apple"; i_shortName := "AAPL" |} ];
     openPositions := [];
     payees := [];
     existingTransactions := existing |}.

(** The same with a live position of ten shares, 0.25 in profit. *)
Definition live_fetched : Fetched :=
  {| accountCurrency := "GBP";
     instruments :=
       [ {| i_isin := "US0378331005"; i_ticker := "AAPL_US_EQ";
            i_name := "Apple"; i_shortName := "AAPL" |} ];
     openPositions :=
       [ {| op_ticker := "AAPL_US_EQ"; op_quantity := inr (of_Z 10);
            op_ppl := inr (Num (1 # 4)) |} ];
     payees := [];
     existingTransactions := [] |}.

End Samples.

(** * Properties *)

Import JS Worker Spec Cover.

Arguments Sha256.sha256_hex : simpl never.
Arguments createImportId : simpl never.

(** ** Strings *)

Lemma substring0_length_le (n : nat) (s : string) :
  String.length (substring 0 n s) <= n.
Proof.
  revert s; induction n as [|n IH]; intros [|c s]; simpl; try lia.
  specialize (IH s); lia.
Qed.


Lemma hex_word_length (x : N) (tail : string) :
  String.length (Sha256.hex_word x tail) = 8 + String.length tail.
Proof. reflexivity. Qed.


Lemma versioned_prefix : VERSIONED_IMPORT_PREFIX = "T212-v14:".
Proof. reflexivity. Qed.

Lemma createImportId_unfold (data : string) :
  createImportId data
  = VERSIONED_IMPORT_PREFIX ++ substring 0 27 (Sha256.sha256_hex data).
Proof.
  unfold createImportId, slice0. rewrite versioned_prefix. reflexivity.
Qed.

(** ** The import identity *)



Example sha256_abc :
  Sha256.sha256_hex "abc"
  = "ba7816bf8f01cfea414140de5dae2223b00361a396177a9cb410ff61f20015ad".
Proof. vm_compute. reflexivity. Qed.

Example sha256_empty :
  Sha256.sha256_hex ""
  = "e3b0c44298fc1c149afbf4c8996fb92427ae41e4649b934ca495991b7852b855".
Proof. vm_compute. reflexivity. Qed.

Example sha256_two_blocks :
  Sha256.sha256_hex "abcdbcdecdefdefgefghfghighijhijkijkljklmklmnlmnomnopnopq"
  = "248d6a61d20638b8e5c026930c3e6039a33ce45964ff2167f6ecedd419db06c1".
Proof. vm_compute. reflexivity. Qed.

Example createImportId_abc :
  createImportId "abc" = "T212-v14:ba7816bf8f01cfea414140de5da".
Proof. vm_compute. reflexivity. Qed.

(** ** Classification *)

Lemma classify_all_app (env : Env) (f : Fetched) (ts1 ts2 : list Trading212Transaction) :
  classify_all env f (ts1 ++ ts2)
  = ((fst (classify_all env f ts1) ++ fst (classify_all env f ts2))%list,
     (snd (classify_all env f ts1) ++ snd (classify_all env f ts2))%list).
Proof.
  induction ts1 as [|t ts1 IH]; simpl.
  - destruct (classify_all env f ts2); reflexivity.
  - rewrite IH.
    destruct (classify env f t) as [l a].
    destruct (classify_all env f ts1) as [l1 a1].
    destruct (classify_all env f ts2) as [l2 a2].
    simpl. rewrite <- !app_assoc. reflexivity.
Qed.

(** C2.  A source transaction whose import identity, derived from
    [timestamp:id], is the [import_id] of an entry already in the ledger
    yields no entry (and no log line): it is skipped before the dispatch on
    its action, and the run classifies the export as if it were not there. *)
Theorem classify_already_imported (env : Env) (f : Fetched) (t : Trading212Transaction) :
  (exists e : Transaction,
      In e (existingTransactions f)
      /\ import_id e
         = Some (createImportId (dayjs_toString (timestamp t) ++ ":" ++ id t))) ->
  classify env f t = ([], [])
  /\ forall before after : list Trading212Transaction,
       classify_all env f (before ++ t :: after)
       = classify_all env f (before ++ after).
Proof.
  intros (e & Hin & Hid).
  assert (Hskip : classify env f t = ([], [])).
  { unfold classify, import_id_of.
    replace (existsb _ (existingTransactions f)) with true; [reflexivity|].
    symmetry. apply existsb_exists. exists e. split; [exact Hin|].
    rewrite Hid. unfold opt_eqb. apply String.eqb_refl. }
  split; [exact Hskip|].
  intros before after.
  rewrite !classify_all_app. simpl. rewrite Hskip.
  destruct (classify_all env f after); reflexivity.
Qed.

Lemma classify_already_imported_witness :
  let t := Samples.source Deposit (of_Z 100000) None in
  let e := Samples.stock_entry "e1" (import_id_of t) Cleared 100000 "" in
  classify Samples.env (Samples.fetched [e]) t = ([], []).
Proof.
  intros t e.
  exact (proj1 (classify_already_imported Samples.env (Samples.fetched [e]) t
                  (ex_intro _ e (conj (or_introl eq_refl) eq_refl)))).
Defined.

(** ** The version check *)




(** ** Numbers *)



(** ** Trades *)



(** ** Currency conversions *)

(** C10, as the code has it.  A currency conversion that reaches the
    dispatch and whose matching leg has no amount still yields one entry,
    with no log line and no error.  When the leg that matches the account
    currency is the source leg, the amount of the entry is [NaN]; when it
    is the target leg, the amount of the entry is missing ([undefined]).
    In both cases the amount is not an integer. *)
Theorem conversion_missing_amount (env : Env) (f : Fetched) (t : Trading212Transaction) :
  action t = CurrencyConversion ->
  dispatched f t ->
  (conversionFromCurrency t = Some (accountCurrency f) ->
   conversionFromAmount t = None ->
   exists entry : Transaction,
     classify env f t = ([], [entry])
     /\ amount entry = Some NaN
     /\ forall z : Z, amount entry <> Some (of_Z z))
  /\ (conversionFromCurrency t <> Some (accountCurrency f) ->
      conversionToCurrency t = Some (accountCurrency f) ->
      conversionToAmount t = None ->
      exists entry : Transaction,
        classify env f t = ([], [entry])
        /\ amount entry = None
        /\ forall z : Z, amount entry <> Some (of_Z z)).
Proof.
  intros Hact [Hnew Hcur].
  unfold classify. rewrite Hnew, Hcur, Hact. split.
  - intros Hfrom Hmissing. rewrite Hfrom, Hmissing.
    unfold opt_eqb. rewrite String.eqb_refl.
    eexists. split; [reflexivity|]. split; [reflexivity|].
    intros z. discriminate.
  - intros Hfrom Hto Hmissing.
    assert (Hneq : opt_eqb (conversionFromCurrency t) (accountCurrency f) = false).
    { destruct (conversionFromCurrency t) as [c|]; [|reflexivity].
      unfold opt_eqb. apply String.eqb_neq. intros ->. apply Hfrom. reflexivity. }
    rewrite Hneq, Hto, Hmissing.
    unfold opt_eqb. rewrite String.eqb_refl.
    eexists. split; [reflexivity|]. split; [reflexivity|].
    intros z. discriminate.
Qed.

Lemma conversion_missing_amount_witness :
  (exists entry : Transaction,
      classify Samples.env (Samples.fetched []) (Samples.conversion "GBP" "USD")
      = ([], [entry])
      /\ amount entry = Some NaN)
  /\ (exists entry : Transaction,
         classify Samples.env (Samples.fetched []) (Samples.conversion "USD" "GBP")
         = ([], [entry])
         /\ amount entry = None).
Proof.
  split.
  - destruct (proj1 (conversion_missing_amount Samples.env (Samples.fetched [])
                       (Samples.conversion "GBP" "USD") eq_refl (conj eq_refl eq_refl))
                eq_refl eq_refl) as (entry & Hc & Ha & _).
    exists entry. split; assumption.
  - destruct (proj2 (conversion_missing_amount Samples.env (Samples.fetched [])
                       (Samples.conversion "USD" "GBP") eq_refl (conj eq_refl eq_refl))
                ltac:(discriminate) eq_refl eq_refl) as (entry & Hc & Ha & _).
    exists entry. split; assumption.
Defined.

(** C10, as stated, fails on the target leg: the conversion from USD to the
    account currency GBP with no target amount yields an entry whose amount
    is missing, not [NaN]. *)
Lemma conversion_to_amount_not_NaN :
  ~ (forall (env : Env) (f : Fetched) (t : Trading212Transaction),
        action t = CurrencyConversion ->
        dispatched f t ->
        conversionFromCurrency t <> Some (accountCurrency f) ->
        conversionToCurrency t = Some (accountCurrency f) ->
        conversionToAmount t = None ->
        exists entry : Transaction,
          classify env f t = ([], [entry]) /\ amount entry = Some NaN).
Proof.
  intros H.
  destruct (H Samples.env (Samples.fetched []) (Samples.conversion "USD" "GBP")
              eq_refl (conj eq_refl eq_refl) ltac:(discriminate) eq_refl eq_refl)
    as (entry & Hc & Ha).
  injection Hc as <-. discriminate Ha.
Qed.

(** ** Maps *)

Lemma Map_get_set_same {V : Type} (m : list (string * V)) (k : string) (v : V) :
  Map_get (Map_set m k v) k = Some v.
Proof.
  induction m as [|[k' v'] m IH]; simpl.
  - rewrite String.eqb_refl. reflexivity.
  - destruct (k' =? k) eqn:E; simpl.
    + rewrite String.eqb_refl. reflexivity.
    + rewrite E. exact IH.
Qed.

Lemma Map_get_set_other {V : Type} (m : list (string * V)) (k k' : string) (v : V) :
  k <> k' -> Map_get (Map_set m k v) k' = Map_get m k'.
Proof.
  intros Hne. induction m as [|[k0 v0] m IH]; simpl.
  - apply String.eqb_neq in Hne. rewrite Hne. reflexivity.
  - destruct (k0 =? k) eqn:E; simpl.
    + apply String.eqb_eq in E. subst k0.
      apply String.eqb_neq in Hne. rewrite Hne. reflexivity.
    + destruct (k0 =? k'); [reflexivity | exact IH].
Qed.

Lemma Map_has_get {V : Type} (m : list (string * V)) (k : string) :
  Map_has m k = true -> exists v : V, Map_get m k = Some v.
Proof.
  unfold Map_has. destruct (Map_get m k) as [v|]; [|discriminate].
  intros _. exists v. reflexivity.
Qed.

(** ** The mark-to-market loop *)

(** C8, as the code has it.  The instrument of a security is looked up
    together with its live position, so the second loop never fails: when
    no instrument with the ISIN has an entry in the live snapshot for its
    ticker (an instrument with the ISIN may well exist), the security is
    skipped without error, whatever its replayed quantity. *)
Theorem mark_position_never_fails (env : Env) (today : string) (f : Fetched)
    (t212Positions : list (string * T212Position))
    (isin_ : string) (ynabPosition : Position) :
  (forall e : Error,
      mark_position env today f t212Positions isin_ ynabPosition <> Throw e)
  /\ ((forall i : Instrument,
          In i (instruments f) -> i_isin i = isin_ ->
          Map_has t212Positions (i_ticker i) = false) ->
      mark_position env today f t212Positions isin_ ynabPosition = Ok Skip).
Proof.
  split.
  - intros e. unfold mark_position.
    destruct (le (quantity ynabPosition) (of_Z 0)); [discriminate|].
    destruct (find _ (instruments f)) as [instrument|] eqn:Hfind; [|discriminate].
    apply find_some in Hfind. destruct Hfind as [_ Hc].
    apply andb_true_iff in Hc. destruct Hc as [_ Hhas].
    apply Map_has_get in Hhas. destruct Hhas as [p Hp]. rewrite Hp.
    destruct (truthy (unclearedId ynabPosition)); discriminate.
  - intros Hnone. unfold mark_position.
    destruct (le (quantity ynabPosition) (of_Z 0)); [reflexivity|].
    destruct (find _ (instruments f)) as [instrument|] eqn:Hfind; [|reflexivity].
    apply find_some in Hfind. destruct Hfind as [Hin Hc].
    apply andb_true_iff in Hc. destruct Hc as [Hisin Hhas].
    apply String.eqb_eq in Hisin.
    rewrite (Hnone instrument Hin Hisin) in Hhas. discriminate.
Qed.

Lemma mark_position_never_fails_witness :
  mark_position Samples.env "2024-03-06" (Samples.fetched []) []
    "US0378331005"
    {| quantity := of_Z 100000000000; totalAmount := of_Z 1000; unclearedId := None |}
  = Ok Skip.
Proof.
  apply (proj2 (mark_position_never_fails Samples.env "2024-03-06"
                  (Samples.fetched []) [] "US0378331005" _)).
  intros i _ _. reflexivity.
Defined.

(** C8, as stated, fails: ten shares are held in the ledger, the catalog
    has an instrument with the ISIN, the live snapshot has no position for
    its ticker, and the run completes without error and without any call. *)
Lemma known_instrument_without_position_is_skipped :
  let buy := Samples.stock_entry "e1" (createImportId "2024-03-05 14:30:00:EOF123")
               Cleared (-1000) "10x AAPL [US0378331005]" in
  let f := Samples.fetched [buy] in
  replay [] (existingTransactions f)
  = Ok [("US0378331005",
         {| quantity := of_Z 100000000000; totalAmount := of_Z 1000;
            unclearedId := None |})]
  /\ (exists i : Instrument,
         In i (instruments f) /\ i_isin i = "US0378331005"
         /\ Map_get (t212Positions_of (openPositions f)) (i_ticker i) = None)
  /\ reconcile Samples.env "2024-03-06" [] f = ([], Resolved)
  /\ forall e : Error, snd (reconcile Samples.env "2024-03-06" [] f) <> Rejected e.
Proof.
  intros buy f. split; [vm_compute; reflexivity|]. split.
  - eexists. split; [left; reflexivity|]. split; reflexivity.
  - assert (H : reconcile Samples.env "2024-03-06" [] f = ([], Resolved))
      by (vm_compute; reflexivity).
    split; [exact H|]. intros e. rewrite H. discriminate.
Qed.

(** ** Position replay *)

Lemma replay_entry_trade (ynabPositions : list (string * Position)) (t : Transaction)
    (shares isin_ : string) :
  not_replayed t = false ->
  bind (memo t) match_memo = Some (shares, isin_) ->
  replay_entry ynabPositions t
  = Ok (Map_set ynabPositions isin_
          (update_position (held ynabPositions isin_) t
             (parseT212StockQuantity (inl shares)))).
Proof.
  intros Hf Hm. unfold replay_entry. rewrite Hf, Hm. reflexivity.
Qed.

Lemma replay_app (m : list (string * Position)) (ts1 ts2 : list Transaction) :
  replay m (ts1 ++ ts2)
  = match replay m ts1 with
    | Ok m' => replay m' ts2
    | Throw e => Throw e
    end.
Proof.
  revert m. induction ts1 as [|t ts1 IH]; intros m; simpl; [reflexivity|].
  destruct (replay_entry m t); [apply IH | reflexivity].
Qed.

Lemma held_set_same (m : list (string * Position)) (k : string) (p : Position) :
  held (Map_set m k p) k = p.
Proof. unfold held. rewrite Map_get_set_same. reflexivity. Qed.

Lemma held_set_other (m : list (string * Position)) (k k' : string) (p : Position) :
  k <> k' -> held (Map_set m k p) k' = held m k'.
Proof. intros H. unfold held. rewrite Map_get_set_other by exact H. reflexivity. Qed.

(** An entry that is not a cleared trade of a security leaves the quantity
    and the cost basis of that security as they are. *)
Lemma replay_entry_untouched (m m' : list (string * Position)) (t : Transaction)
    (isin_ : string) :
  cleared_trade_of isin_ t = false ->
  replay_entry m t = Ok m' ->
  quantity (held m' isin_) = quantity (held m isin_)
  /\ totalAmount (held m' isin_) = totalAmount (held m isin_).
Proof.
  unfold cleared_trade_of, replay_entry.
  destruct (not_replayed t); simpl.
  - intros _ H. injection H as <-. split; reflexivity.
  - destruct (bind (memo t) match_memo) as [[shares i]|]; [|discriminate].
    intros Hc H. injection H as <-.
    destruct (String.eqb_spec i isin_) as [Heq | Hne].
    + subst i. rewrite held_set_same. unfold update_position.
      destruct (cleared t); [discriminate| |split; reflexivity].
      destruct (entry_id t); split; reflexivity.
    + rewrite held_set_other by exact Hne. split; reflexivity.
Qed.

Lemma replay_untouched (ts : list Transaction) (m m' : list (string * Position))
    (isin_ : string) :
  (forall e : Transaction, In e ts -> cleared_trade_of isin_ e = false) ->
  replay m ts = Ok m' ->
  quantity (held m' isin_) = quantity (held m isin_)
  /\ totalAmount (held m' isin_) = totalAmount (held m isin_).
Proof.
  revert m. induction ts as [|t ts IH]; intros m Hall; simpl.
  - intros H. injection H as <-. split; reflexivity.
  - destruct (replay_entry m t) as [m1|e] eqn:E; [|discriminate].
    intros H.
    destruct (replay_entry_untouched m m1 t isin_ (Hall t (or_introl eq_refl)) E)
      as [Hq Ht].
    destruct (IH m1 (fun e He => Hall e (or_intror He)) H) as [Hq' Ht'].
    split; congruence.
Qed.

(** The cost basis after a sale from an empty position is [NaN]. *)
Lemma sale_from_nothing (qty : number) :
  Math_round (mul (of_Z 0) (sub (of_Z 1) (div qty (of_Z 0)))) = NaN
  /\ forall q : Q, div qty (of_Z 0) <> Num q.
Proof.
  destruct qty as [q|s|].
  - unfold div, of_Z. change (Qis_zero (inject_Z 0)) with true. cbv iota.
    destruct (Qis_zero q); split; try reflexivity; discriminate.
  - split; [reflexivity | discriminate].
  - split; [reflexivity | discriminate].
Qed.

Lemma gt_zero_sub_neg (qty : number) :
  gt qty (of_Z 0) = true -> lt (sub (of_Z 0) qty) (of_Z 0) = true.
Proof.
  destruct qty as [q|s|].
  - unfold gt, lt, sub, add, neg, of_Z.
    intros H. apply negb_true_iff in H. apply negb_true_iff.
    destruct (Qle_bool (inject_Z 0) (Qred (inject_Z 0 + Qred (- q)))) eqn:E';
      [|reflexivity].
    apply Qle_bool_iff in E'. rewrite !Qred_correct in E'.
    assert (Hle : (q <= inject_Z 0)%Q) by (unfold inject_Z in *; lra).
    apply Qle_bool_iff in Hle. congruence.
  - destruct s; [discriminate | reflexivity].
  - discriminate.
Qed.

Lemma round_scaled (T q h : Q) :
  ~ (h == 0)%Q ->
  exists z : Z,
    Math_round (mul (Num T) (sub (of_Z 1) (div (Num q) (Num h)))) = of_Z z
    /\ (Qabs (inject_Z z - T * (1 - q / h)) <= 1 # 2)%Q.
Proof.
  intros Hh.
  assert (Hz : Qis_zero h = false).
  { unfold Qis_zero. apply Z.eqb_neq. intros H0. apply Hh.
    destruct h as [n d]. simpl in H0. subst n. reflexivity. }
  unfold div. rewrite Hz. unfold sub, neg, add, mul, Math_round, of_Z.
  set (x := Qred (T * Qred (inject_Z 1 + Qred (- Qred (q / h))))).
  exists (Qfloor (x + (1 # 2))). split; [reflexivity|].
  assert (Hx : (x == T * (1 - q / h))%Q).
  { unfold x. rewrite !Qred_correct. unfold inject_Z. ring. }
  pose proof (Qfloor_le (x + (1 # 2))) as Hlo.
  pose proof (Qlt_floor (x + (1 # 2))) as Hhi.
  rewrite inject_Z_plus in Hhi.
  apply Qabs_Qle_condition. rewrite <- Hx.
  change (inject_Z 1) with 1%Q in Hhi.
  split; lra.
Qed.



(** ** A sale with nothing held *)

(** C9, as the code has it.  When a cleared sale is replayed and no cleared
    trade of its security came before it, the quantity held at that point
    is 0, the proportion sold is a division by zero (not a finite number),
    the cost basis becomes [NaN], and the quantity becomes the negated
    share count: negative when the share count is positive, 0 when it is
    0.  With a held quantity other than zero and finite operands the
    cost basis is an integer. *)
Theorem sale_before_purchase (before : list Transaction)
    (ynabPositions : list (string * Position)) (t : Transaction)
    (shares isin_ : string) :
  replay [] before = Ok ynabPositions ->
  (forall e : Transaction, In e before -> cleared_trade_of isin_ e = false) ->
  not_replayed t = false ->
  bind (memo t) match_memo = Some (shares, isin_) ->
  cleared t = Cleared ->
  gt (ToNumber (transactionAmount t)) (of_Z 0) = true ->
  let qty := parseT212StockQuantity (inl shares) in
  quantity (held ynabPositions isin_) = of_Z 0
  /\ (forall q : Q, div qty (quantity (held ynabPositions isin_)) <> Num q)
  /\ (exists (ynabPositions' : list (string * Position)) (position : Position),
         replay [] (before ++ [t]) = Ok ynabPositions'
         /\ Map_get ynabPositions' isin_ = Some position
         /\ totalAmount position = NaN
         /\ quantity position = sub (of_Z 0) qty
         /\ (gt qty (of_Z 0) = true -> lt (quantity position) (of_Z 0) = true)
         /\ (qty = of_Z 0 -> quantity position = of_Z 0))
  /\ (forall T q h : Q,
        ~ (h == 0)%Q ->
        exists z : Z,
          Math_round (mul (Num T) (sub (of_Z 1) (div (Num q) (Num h)))) = of_Z z).
Proof.
  intros Hbefore Hnone Hf Hm Hc Hsale qty.
  destruct (replay_untouched before [] ynabPositions isin_ Hnone Hbefore) as [Hq Ht].
  change (quantity (held [] isin_)) with (of_Z 0) in Hq.
  change (totalAmount (held [] isin_)) with (of_Z 0) in Ht.
  destruct (sale_from_nothing qty) as [Hnan Hdiv].
  split; [exact Hq|]. split; [rewrite Hq; exact Hdiv|]. split.
  - eexists. eexists.
    split.
    { rewrite replay_app, Hbefore. simpl.
      rewrite (replay_entry_trade _ _ _ _ Hf Hm). reflexivity. }
    split; [apply Map_get_set_same|].
    unfold update_position. rewrite Hc, Hsale. fold qty. cbn [totalAmount quantity].
    rewrite Hq, Ht.
    split; [exact Hnan|]. split; [reflexivity|].
    split; [apply gt_zero_sub_neg|].
    intros ->. reflexivity.
  - intros T q h Hh. destruct (round_scaled T q h Hh) as (z & Hz & _).
    exists z. exact Hz.
Qed.

Lemma sale_before_purchase_witness :
  let sale := Samples.stock_entry "e2" (createImportId "sale") Cleared 450
                "4x AAPL [US0378331005]" in
  exists (ynabPositions' : list (string * Position)) (position : Position),
    replay [] [sale] = Ok ynabPositions'
    /\ Map_get ynabPositions' "US0378331005" = Some position
    /\ totalAmount position = NaN
    /\ lt (quantity position) (of_Z 0) = true.
Proof.
  intros sale.
  destruct (sale_before_purchase [] [] sale "4" "US0378331005")
    as (_ & _ & (m & p & Hr & Hg & Ht & _ & Hneg & _) & _).
  - reflexivity.
  - intros e [].
  - vm_compute. reflexivity.
  - vm_compute. reflexivity.
  - reflexivity.
  - reflexivity.
  - exists m, p. split; [exact Hr|]. split; [exact Hg|]. split; [exact Ht|].
    apply Hneg. vm_compute. reflexivity.
Defined.

(** C9, as stated, fails on the quantity: a cleared sale of 0 shares
    replayed first leaves the quantity at 0, which is not negative (the
    cost basis is [NaN] all the same).  And only the first sale meets a
    held quantity of 0: after a sale of 4 shares with nothing held, the
    quantity a second sale would divide by is -40000000000. *)
Lemma sale_of_no_shares_keeps_quantity :
  let sale := Samples.stock_entry "e2" (createImportId "sale") Cleared 450
                "0x AAPL [US0378331005]" in
  let sale4 := Samples.stock_entry "e3" (createImportId "sale4") Cleared 450
                 "4x AAPL [US0378331005]" in
  not_replayed sale = false
  /\ cleared sale = Cleared
  /\ gt (ToNumber (transactionAmount sale)) (of_Z 0) = true
  /\ replay [] [sale]
     = Ok [("US0378331005",
            {| quantity := of_Z 0; totalAmount := NaN; unclearedId := None |})]
  /\ lt (of_Z 0) (of_Z 0) = false
  /\ replay [] [sale4]
     = Ok [("US0378331005",
            {| quantity := of_Z (-40000000000); totalAmount := NaN;
               unclearedId := None |})].
Proof.
  intros sale sale4. repeat split; vm_compute; reflexivity.
Qed.

(** ** More on strings *)

Lemma sapp_assoc (a b c : string) : (a ++ b) ++ c = a ++ b ++ c.
Proof. induction a as [|x a IH]; simpl; [reflexivity | rewrite IH; reflexivity]. Qed.








(** ** Decimal digits *)

Lemma digit_of_char (d : N) : (d < 10)%N -> digit_of 10 (digit_char d) = Some d.
Proof.
  intros H.
  assert (C : (d = 0 \/ d = 1 \/ d = 2 \/ d = 3 \/ d = 4 \/ d = 5 \/ d = 6
               \/ d = 7 \/ d = 8 \/ d = 9)%N) by lia.
  repeat (destruct C as [-> | C]; [reflexivity|]). subst d. reflexivity.
Qed.

Lemma digit_of_inv (c : ascii) (d : N) :
  digit_of 10 c = Some d -> c = digit_char d /\ (d < 10)%N.
Proof.
  destruct c as [[] [] [] [] [] [] [] []]; vm_compute; intros H;
    try discriminate; injection H as <-; split; reflexivity.
Qed.

Lemma digits_of_acc (fuel : nat) (n : N) (acc : string) :
  digits_of fuel n acc = digits_of fuel n "" ++ acc.
Proof.
  revert n acc. induction fuel as [|fuel IH]; intros n acc; simpl; [reflexivity|].
  destruct (n / 10 =? 0)%N; [reflexivity|].
  rewrite IH. rewrite (IH _ (String _ "")).
  rewrite sapp_assoc. reflexivity.
Qed.

Lemma digits_of_fuel (f1 f2 : nat) (n : N) (acc : string) :
  (n < 2 ^ N.of_nat f1)%N -> (n < 2 ^ N.of_nat f2)%N ->
  digits_of (S f1) n acc = digits_of (S f2) n acc.
Proof.
  revert f2 n acc. induction f1 as [|f1 IH]; intros f2 n acc H1 H2.
  - simpl in H1. assert (n = 0%N) by lia. subst n. reflexivity.
  - cbn [digits_of]. destruct (n / 10 =? 0)%N eqn:E; [reflexivity|].
    apply N.eqb_neq in E.
    assert (Hn : (10 <= n)%N).
    { destruct (N.lt_ge_cases n 10) as [Hlt|Hge]; [|exact Hge].
      exfalso. apply E. apply N.div_small. exact Hlt. }
    destruct f2 as [|f2]; [simpl in H2; lia|].
    assert (Hdiv : forall k : nat, (n < 2 ^ N.of_nat (S k))%N -> (n / 10 < 2 ^ N.of_nat k)%N).
    { intros k Hk. apply N.Div0.div_lt_upper_bound.
      rewrite Nat2N.inj_succ, N.pow_succ_r' in Hk. lia. }
    apply (IH f2); apply Hdiv; assumption.
Qed.

Lemma N_induction_digits (P : N -> Prop) :
  (forall d : N, (d < 10)%N -> P d) ->
  (forall n d : N, (0 < n)%N -> (d < 10)%N -> P n -> P (10 * n + d)%N) ->
  forall n : N, P n.
Proof.
  intros Hsmall Hstep n.
  induction n as [n IH] using (well_founded_induction N.lt_wf_0).
  destruct (N.lt_ge_cases n 10) as [Hlt|Hge]; [apply Hsmall; exact Hlt|].
  rewrite (N.div_mod n 10) by lia.
  apply Hstep.
  - apply N.div_str_pos. lia.
  - apply N.mod_lt. lia.
  - apply IH. apply N.div_lt; lia.
Qed.

Lemma N_toString_small (d : N) :
  (d < 10)%N -> N_toString d = String (digit_char d) "".
Proof.
  intros H. unfold N_toString. cbn [digits_of].
  rewrite (N.div_small d 10) by exact H.
  rewrite (N.mod_small d 10) by exact H. reflexivity.
Qed.

Lemma N_toString_snoc (n d : N) :
  (0 < n)%N -> (d < 10)%N ->
  N_toString (10 * n + d) = N_toString n ++ String (digit_char d) "".
Proof.
  intros Hn Hd. unfold N_toString.
  set (m := (10 * n + d)%N).
  assert (Hdiv : (m / 10 = n)%N).
  { unfold m. rewrite N.mul_comm, N.div_add_l by lia.
    rewrite (N.div_small d 10) by exact Hd. lia. }
  assert (Hmod : (m mod 10 = d)%N).
  { unfold m. rewrite N.add_comm, N.mul_comm, N.Div0.mod_add.
    apply N.mod_small. exact Hd. }
  cbn [digits_of]. rewrite Hdiv, Hmod.
  assert (E : (n =? 0)%N = false) by (apply N.eqb_neq; lia). rewrite E.
  pose proof (N.size_gt m) as Hm. pose proof (N.size_gt n) as Hsn.
  destruct (N.to_nat (N.size m)) as [|f] eqn:Ef.
  - exfalso. assert (N.size m = 0%N) by lia.
    rewrite H in Hm. simpl in Hm. unfold m in Hm. lia.
  - rewrite digits_of_acc. f_equal.
    apply digits_of_fuel.
    + assert (Hf : N.size m = N.succ (N.of_nat f)) by lia.
      rewrite Hf, N.pow_succ_r' in Hm. unfold m in Hm. lia.
    + rewrite N2Nat.id. exact Hsn.
Qed.

Lemma digits_value_app (l1 l2 : list N) :
  digits_value 10 (l1 ++ l2)
  = (digits_value 10 l1 * 10 ^ N.of_nat (List.length l2) + digits_value 10 l2)%N.
Proof.
  unfold digits_value. rewrite fold_left_app.
  generalize (fold_left (fun acc d : N => (acc * 10 + d)%N) l1 0%N) as v.
  induction l2 as [|d l2 IH]; intros v.
  - simpl. lia.
  - cbn [fold_left List.length]. rewrite IH, (IH (0 * 10 + d)%N).
    rewrite Nat2N.inj_succ, N.pow_succ_r'. lia.
Qed.

Lemma take_digits_app (a b : string) :
  all_digits a = true ->
  take_digits 10 (a ++ b) = (take_digits 10 a ++ take_digits 10 b)%list.
Proof.
  induction a as [|c a IH]; simpl; intros H; [reflexivity|].
  destruct (digit_of 10 c); [|discriminate].
  rewrite IH by exact H. reflexivity.
Qed.


Lemma all_digits_app (a b : string) :
  all_digits (a ++ b) = all_digits a && all_digits b.
Proof.
  induction a as [|c a IH]; simpl; [reflexivity|].
  destruct (digit_of 10 c); [exact IH | reflexivity].
Qed.

Lemma N_toString_digits (n : N) :
  all_digits (N_toString n) = true
  /\ digits_value 10 (take_digits 10 (N_toString n)) = n.
Proof.
  induction n as [d Hd | n d Hn Hd [IHa IHv]] using N_induction_digits.
  - rewrite N_toString_small by exact Hd. simpl.
    rewrite digit_of_char by exact Hd. split; [reflexivity|].
    unfold digits_value. simpl. lia.
  - rewrite N_toString_snoc by assumption.
    rewrite all_digits_app, IHa. cbn [all_digits andb].
    rewrite digit_of_char by exact Hd.
    split; [reflexivity|].
    rewrite take_digits_app by exact IHa. cbn [take_digits].
    rewrite digit_of_char by exact Hd.
    rewrite digits_value_app, IHv. unfold digits_value.
    cbn [fold_left List.length]. change (10 ^ N.of_nat 1)%N with 10%N. lia.
Qed.

Lemma N_toString_nonempty (n : N) : N_toString n <> "".
Proof.
  induction n as [d Hd | n d Hn Hd _] using N_induction_digits.
  - rewrite N_toString_small by exact Hd. discriminate.
  - rewrite N_toString_snoc by assumption.
    destruct (N_toString n); discriminate.
Qed.


Lemma includes_app (a b : string) (c : ascii) :
  includes (a ++ b) c = includes a c || includes b c.
Proof.
  induction a as [|x a IH]; simpl; [reflexivity|].
  rewrite IH, orb_assoc. reflexivity.
Qed.



Lemma parseInt_digits (negative : bool) (a : string) :
  all_digits a = true -> a <> "" ->
  parseInt (sign negative ++ a)
  = of_Z (let v := Z.of_N (digits_value 10 (take_digits 10 a)) in
          if negative then - v else v).
Proof.
  intros Ha Hne. destruct a as [|c a]; [contradiction|]. clear Hne.
  cbn [all_digits] in Ha.
  destruct (digit_of 10 c) as [d|] eqn:Ec; [|discriminate].
  assert (Hrest : match String c a with
                  | String "0" (String "x" r) | String "0" (String "X" r) => (16%N, r)
                  | _ => (10%N, String c a)
                  end = (10%N, String c a)
                  /\ strip_sign (String c a) = (false, String c a)
                  /\ is_space c = false).
  { destruct (digit_of_inv c d Ec) as [-> Hd].
    assert (C : (d = 0 \/ d = 1 \/ d = 2 \/ d = 3 \/ d = 4 \/ d = 5 \/ d = 6
                 \/ d = 7 \/ d = 8 \/ d = 9)%N) by lia.
    destruct a as [|c' a].
    - repeat (destruct C as [-> | C]; [repeat split; reflexivity|]).
      subst d. repeat split; reflexivity.
    - cbn [all_digits] in Ha.
      destruct (digit_of 10 c') as [d'|] eqn:Ec'; [|discriminate].
      destruct (digit_of_inv c' d' Ec') as [-> Hd'].
      assert (C' : (d' = 0 \/ d' = 1 \/ d' = 2 \/ d' = 3 \/ d' = 4 \/ d' = 5
                    \/ d' = 6 \/ d' = 7 \/ d' = 8 \/ d' = 9)%N) by lia.
      repeat (destruct C as [-> | C];
              [repeat (destruct C' as [-> | C']; [repeat split; reflexivity|]);
               subst d'; repeat split; reflexivity|]).
      subst d.
      repeat (destruct C' as [-> | C']; [repeat split; reflexivity|]).
      subst d'. repeat split; reflexivity. }
  destruct Hrest as (Hradix & Hs & Hsp).
  assert (Hd : take_digits 10 (String c a) = d :: take_digits 10 a)
    by (cbn [take_digits]; rewrite Ec; reflexivity).
  unfold parseInt.
  destruct negative; cbn [sign append trim_start].
  - change (is_space "-") with false. cbv iota. cbn [strip_sign].
    rewrite Hradix, Hd. reflexivity.
  - rewrite Hsp, Hs, Hradix, Hd. reflexivity.
Qed.

(** ** The fixed-point codec *)

Lemma Qred_inject_Z (z : Z) : Qred (inject_Z z) = inject_Z z.
Proof.
  unfold Qred, inject_Z.
  pose proof (Z.ggcd_gcd z 1) as Hg.
  pose proof (Z.ggcd_correct_divisors z 1) as Hd.
  destruct (Z.ggcd z 1) as (g, (n, d)). simpl in Hg, Hd.
  rewrite Z.gcd_1_r in Hg. subst g. destruct Hd as [Hn Hd]. simpl.
  replace n with z by lia. replace d with 1%Z by lia. reflexivity.
Qed.

Lemma mul_of_Z (a b : Z) : mul (of_Z a) (of_Z b) = of_Z (a * b).
Proof.
  unfold mul, of_Z. f_equal.
  rewrite <- (Qred_inject_Z (a * b)). apply Qred_complete.
  rewrite inject_Z_mult. reflexivity.
Qed.

Lemma all_digits_repeat_zero (n : nat) : all_digits (repeat_char "0" n) = true.
Proof. induction n as [|n IH]; [reflexivity | exact IH]. Qed.




Lemma Qfloor_half (z : Z) : Qfloor (inject_Z z + (1 # 2)) = z.
Proof.
  unfold Qfloor, Qplus, inject_Z. simpl.
  symmetry. apply (Z.div_unique _ 2 z 1); lia.
Qed.








(** ** Share counts *)

Lemma digits_zeros (n : nat) :
  digits_value 10 (take_digits 10 (repeat_char "0" n)) = 0%N.
Proof.
  assert (H : forall acc : N,
             fold_left (fun a d : N => (a * 10 + d)%N)
               (take_digits 10 (repeat_char "0" n)) acc
             = (acc * 10 ^ N.of_nat n)%N).
  { induction n as [|n IH]; intros acc.
    - simpl. lia.
    - cbn [repeat_char take_digits]. change (digit_of 10 "0") with (Some 0%N).
      cbn [fold_left]. rewrite IH, Nat2N.inj_succ, N.pow_succ_r'. lia. }
  unfold digits_value. rewrite H. lia.
Qed.








(** ** Scenarios of the specification *)

(** An export with one deposit of [100.00]: one create of a cleared entry
    of amount 100000 and payee [Deposit]. *)
Example deposit_scenario :
  exists entry : Transaction,
    syncAccount Samples.dayjs_utc Samples.env "2024-03-06"
      [Samples.record "Deposit" "" "100.00" "GBP" ""] (Samples.fetched [])
    = ([CreateTransactions "budget-1" [entry]], Resolved)
    /\ amount entry = Some (of_Z 100000)
    /\ cleared entry = Cleared
    /\ payee_name entry = Some "Deposit".
Proof.
  eexists. split; [vm_compute; reflexivity|]. repeat split.
Qed.

(** A currency conversion of which neither leg is in the account currency:
    a log line, no entry, and the run completes. *)
Example foreign_conversion_scenario :
  exists message : string,
    reconcile Samples.env "2024-03-06" [Samples.conversion "USD" "EUR"]
      (Samples.fetched [])
    = ([ConsoleLog message], Resolved).
Proof.
  eexists. vm_compute. reflexivity.
Qed.

(** * Further properties of the code *)

(** ** The schema *)

Lemma nativeEnum_name (a : Trading212Action) : nativeEnum (action_name a) = Some a.
Proof. destruct a; reflexivity. Qed.

(** X1.  The names of the nine actions are pairwise distinct, so the enum
    of the schema reads back every action from its name, and accepts a
    string only when it is the name of the action it returns. *)
Theorem nativeEnum_round_trip :
  (forall a : Trading212Action, nativeEnum (action_name a) = Some a)
  /\ (forall (s : string) (a : Trading212Action),
         nativeEnum s = Some a -> s = action_name a)
  /\ (forall a b : Trading212Action, action_name a = action_name b -> a = b).
Proof.
  split; [exact nativeEnum_name|]. split.
  - intros s a H. unfold nativeEnum in H. apply find_some in H.
    destruct H as [_ H]. apply String.eqb_eq in H. symmetry. exact H.
  - intros a b H. pose proof (nativeEnum_name a) as Ha.
    rewrite H, nativeEnum_name in Ha. injection Ha as ->. reflexivity.
Qed.

Lemma nativeEnum_round_trip_witness : "Market buy" = action_name MarketBuy.
Proof.
  exact (proj1 (proj2 nativeEnum_round_trip) "Market buy" MarketBuy eq_refl).
Defined.

Lemma parseTransaction_columns (dayjs_utc : string -> Dayjs) (data : CsvRecord) :
  forallb present (columns data) = false -> parseTransaction dayjs_utc data = None.
Proof.
  unfold parseTransaction, columns.
  destruct data as [c1 c2 c3 c4 c5 c6 c7 c8 c9 c10 c11 c12 c13 c14 c15 c16 c17
                      c18 c19 c20 c21 c22 c23].
  cbn [col_Action col_Time col_ISIN col_Ticker col_Name col_No_of_shares
       col_Price_per_share col_Currency_Price_per_share col_Exchange_rate
       col_Result col_Currency_Result col_Total col_Currency_Total
       col_Withholding_tax col_Currency_Withholding_tax col_Notes col_ID
       col_Currency_conversion_from_amount
       col_Currency_Currency_conversion_from_amount
       col_Currency_conversion_to_amount
       col_Currency_Currency_conversion_to_amount
       col_Currency_conversion_fee col_Currency_Currency_conversion_fee].
  destruct c1 as [a|]; [|reflexivity].
  cbn [bind]. destruct (nativeEnum a); [|reflexivity]. cbn [bind].
  repeat match goal with
         | |- forallb _ _ = false -> bind ?o _ = None =>
             destruct o; [cbn [bind] | reflexivity]
         end.
  unfold columns. simpl. discriminate.
Qed.

Lemma columns_present (data : CsvRecord) :
  forallb present (columns data) = true ->
  exists c1 c2 c3 c4 c5 c6 c7 c8 c9 c10 c11 c12 c13 c14 c15 c16 c17 c18 c19 c20
         c21 c22 c23 : string,
    data = Build_CsvRecord (Some c1) (Some c2) (Some c3) (Some c4) (Some c5)
             (Some c6) (Some c7) (Some c8) (Some c9) (Some c10) (Some c11)
             (Some c12) (Some c13) (Some c14) (Some c15) (Some c16) (Some c17)
             (Some c18) (Some c19) (Some c20) (Some c21) (Some c22) (Some c23).
Proof.
  destruct data as [c1 c2 c3 c4 c5 c6 c7 c8 c9 c10 c11 c12 c13 c14 c15 c16 c17
                      c18 c19 c20 c21 c22 c23].
  unfold columns. intros E.
  destruct c1; [|discriminate E]. destruct c2; [|discriminate E].
  destruct c3; [|discriminate E]. destruct c4; [|discriminate E].
  destruct c5; [|discriminate E]. destruct c6; [|discriminate E].
  destruct c7; [|discriminate E]. destruct c8; [|discriminate E].
  destruct c9; [|discriminate E]. destruct c10; [|discriminate E].
  destruct c11; [|discriminate E]. destruct c12; [|discriminate E].
  destruct c13; [|discriminate E]. destruct c14; [|discriminate E].
  destruct c15; [|discriminate E]. destruct c16; [|discriminate E].
  destruct c17; [|discriminate E]. destruct c18; [|discriminate E].
  destruct c19; [|discriminate E]. destruct c20; [|discriminate E].
  destruct c21; [|discriminate E]. destruct c22; [|discriminate E].
  destruct c23; [|discriminate E].
  repeat eexists.
Qed.

(** X2.  A record passes the schema exactly when all 23 columns are there
    and the action is one of the nine names; nothing else is checked: the
    total is whatever [parseMoney] reads in its column ([NaN] included),
    the identifier is the raw string, and an empty optional column is a
    missing field. *)
Theorem parseTransaction_accepts (dayjs_utc : string -> Dayjs) (data : CsvRecord) :
  ((exists t : Trading212Transaction, parseTransaction dayjs_utc data = Some t)
   <-> forallb present (columns data) = true
       /\ exists a : Trading212Action, bind (col_Action data) nativeEnum = Some a)
  /\ forall t : Trading212Transaction,
       parseTransaction dayjs_utc data = Some t ->
       bind (col_Action data) nativeEnum = Some (action t)
       /\ option_map (fun raw => parseMoney (inl raw)) (col_Total data) = Some (total t)
       /\ col_ID data = Some (id t)
       /\ option_map dayjs_utc (col_Time data) = Some (timestamp t)
       /\ option_map optionalString (col_Currency_Total data)
          = Some (totalCurrency t)
       /\ option_map optionalFloat (col_No_of_shares data) = Some (shareCount t).
Proof.
  destruct (forallb present (columns data)) eqn:E.
  - destruct (columns_present data E)
      as (c1 & c2 & c3 & c4 & c5 & c6 & c7 & c8 & c9 & c10 & c11 & c12 & c13 & c14
          & c15 & c16 & c17 & c18 & c19 & c20 & c21 & c22 & c23 & ->).
    unfold parseTransaction.
    cbn [col_Action col_Time col_ISIN col_Ticker col_Name col_No_of_shares
         col_Price_per_share col_Currency_Price_per_share col_Exchange_rate
         col_Result col_Currency_Result col_Total col_Currency_Total
         col_Withholding_tax col_Currency_Withholding_tax col_Notes col_ID
         col_Currency_conversion_from_amount
         col_Currency_Currency_conversion_from_amount
         col_Currency_conversion_to_amount
         col_Currency_Currency_conversion_to_amount
         col_Currency_conversion_fee col_Currency_Currency_conversion_fee
         bind option_map].
    destruct (nativeEnum c1) as [a|]; cbn [bind].
    + split.
      * split; [intros _; split; [reflexivity | exists a; reflexivity]|].
        intros _. eexists. reflexivity.
      * intros t H. injection H as <-. repeat split.
    + split.
      * split; [intros [t H]; discriminate | intros [_ [a H]]; discriminate].
      * intros t H. discriminate.
  - rewrite (parseTransaction_columns _ _ E). split.
    + split; [intros [t H]; discriminate | intros [H _]; discriminate].
    + intros t H. discriminate.
Qed.

Lemma parseTransaction_accepts_witness :
  exists t : Trading212Transaction,
    parseTransaction Samples.dayjs_utc
      (Samples.record "Deposit" "" "not a number" "GBP" "") = Some t.
Proof.
  apply (proj2 (proj1 (parseTransaction_accepts Samples.dayjs_utc
                         (Samples.record "Deposit" "" "not a number" "GBP" "")))).
  split; [reflexivity|]. exists Deposit. reflexivity.
Defined.

(** ** The fixed-point codec *)



Lemma split_head (sep c : ascii) (r : string) :
  Ascii.eqb c sep = false ->
  exists (h : string) (t : list string), split sep (String c r) = String c h :: t.
Proof.
  intros H. cbn [split]. rewrite H.
  destruct (split sep r) as [|h t]; eexists; eexists; reflexivity.
Qed.

Lemma parseInt_not_a_number (c : ascii) (r : string) :
  digit_of 10 c = None -> is_space c = false ->
  Ascii.eqb c "-" = false -> Ascii.eqb c "+" = false ->
  parseInt (String c r) = NaN.
Proof.
  intros Hd Hs Hm Hp. unfold parseInt. cbn [trim_start]. rewrite Hs.
  assert (Hsign : strip_sign (String c r) = (false, String c r)).
  { destruct c as [[] [] [] [] [] [] [] []]; try reflexivity; discriminate. }
  rewrite Hsign.
  assert (Hradix : match String c r with
                   | String "0" (String "x" r') | String "0" (String "X" r') =>
                       (16%N, r')
                   | _ => (10%N, String c r)
                   end = (10%N, String c r)).
  { destruct c as [[] [] [] [] [] [] [] []]; try reflexivity; discriminate. }
  rewrite Hradix. cbn [take_digits]. rewrite Hd. reflexivity.
Qed.

(** X4.  An amount that does not start with a digit (nor with white
    space, a sign or the point) is read as [NaN], whatever the precision
    and the factor: the codec never fails.  The empty amount is read as 0
    as soon as the precision is positive. *)
Theorem parseAmount_not_a_number (c : ascii) (r : string) (inputPrecision : nat)
    (outputFactor : number) :
  digit_of 10 c = None -> is_space c = false ->
  Ascii.eqb c "-" = false -> Ascii.eqb c "+" = false -> Ascii.eqb c "." = false ->
  parseAmount (inl (String c r)) inputPrecision outputFactor = NaN
  /\ forall f : Z, parseAmount (inl "") (S inputPrecision) (of_Z f) = of_Z 0.
Proof.
  intros Hd Hs Hm Hp Hdot. split.
  - unfold parseAmount, template.
    destruct (split_head "." c r Hdot) as (h & t & ->).
    cbn [hd append]. rewrite (parseInt_not_a_number c _ Hd Hs Hm Hp). reflexivity.
  - intros f. unfold parseAmount, template. cbn [split hd nth append].
    assert (E : parseInt (sign false ++ padEnd "" (S inputPrecision) "0")
                = of_Z 0).
    { rewrite parseInt_digits.
      - unfold padEnd. cbn [String.length append]. rewrite digits_zeros. reflexivity.
      - unfold padEnd. apply all_digits_repeat_zero.
      - discriminate. }
    cbn [sign append] in E. rewrite E, mul_of_Z. reflexivity.
Qed.

Lemma parseAmount_not_a_number_witness : parseMoney (inl "abc") = NaN.
Proof.
  exact (proj1 (parseAmount_not_a_number "a" "bc" 2 (of_Z 10)
                  eq_refl eq_refl eq_refl eq_refl eq_refl)).
Defined.

(** ** Classification *)

Lemma createImportId_versioned (data : string) :
  startsWith (createImportId data) VERSIONED_IMPORT_PREFIX = true
  /\ startsWith (createImportId data) IMPORT_PREFIX = true.
Proof.
  rewrite createImportId_unfold, versioned_prefix. split; reflexivity.
Qed.

Lemma classify_entries_shape (env : Env) (f : Fetched) (t : Trading212Transaction) :
  List.length (snd (classify env f t)) <= 1
  /\ forall e : Transaction,
       In e (snd (classify env f t)) ->
       cleared e = Cleared
       /\ account_id e = ACCOUNT env
       /\ date e = dayjs_utc_date (timestamp t)
       /\ entry_id e = None
       /\ import_id e = Some (import_id_of t)
       /\ opt_startsWith (import_id e) VERSIONED_IMPORT_PREFIX = true.
Proof.
  assert (Hv : opt_startsWith (Some (import_id_of t)) VERSIONED_IMPORT_PREFIX = true)
    by apply createImportId_versioned.
  unfold classify.
  destruct (existsb _ (existingTransactions f)); [split; [simpl; lia | intros e []]|].
  destruct (truthy (totalCurrency t) && _); [split; [simpl; lia | intros e []]|].
  destruct (action t); cbn [snd List.length In].
  all: try (split; [lia|]; intros e [<- | []]; repeat split; exact Hv).
  - destruct (gt _ (of_Z 0));
      (split; [lia|]; intros e [<- | []]; repeat split; exact Hv).
  - destruct (gt _ (of_Z 0));
      (split; [lia|]; intros e [<- | []]; repeat split; exact Hv).
  - destruct (opt_eqb (conversionFromCurrency t) (accountCurrency f));
      [|destruct (opt_eqb (conversionToCurrency t) (accountCurrency f))];
      cbn [snd List.length In]; (split; [lia|]).
    + intros e [<- | []]; repeat split; exact Hv.
    + intros e [<- | []]; repeat split; exact Hv.
    + intros e [].
Qed.

(** X5.  Every entry that the loop over the export pushes is a create for
    the account of the run: it is cleared, dated with the UTC date of the
    transaction, has no ledger id, and carries the import identity of the
    transaction, which has the prefix of the current version.  A
    transaction yields at most one entry, a split trade included. *)
Theorem classify_entries (env : Env) (f : Fetched) (t : Trading212Transaction) :
  List.length (snd (classify env f t)) <= 1
  /\ forall e : Transaction,
       In e (snd (classify env f t)) ->
       cleared e = Cleared
       /\ account_id e = ACCOUNT env
       /\ date e = dayjs_utc_date (timestamp t)
       /\ entry_id e = None
       /\ import_id e = Some (import_id_of t)
       /\ opt_startsWith (import_id e) VERSIONED_IMPORT_PREFIX = true.
Proof. exact (classify_entries_shape env f t). Qed.

Lemma classify_entries_witness :
  exists e : Transaction,
    In e (snd (classify Samples.env (Samples.fetched [])
                 (Samples.source Deposit (of_Z 100000) None)))
    /\ cleared e = Cleared /\ date e = "2024-03-05".
Proof.
  assert (H : exists e : Transaction,
             In e (snd (classify Samples.env (Samples.fetched [])
                          (Samples.source Deposit (of_Z 100000) None)))).
  { vm_compute. eexists. left. reflexivity. }
  destruct H as [e H]. exists e. split; [exact H|].
  destruct (proj2 (classify_entries Samples.env (Samples.fetched [])
                     (Samples.source Deposit (of_Z 100000) None)) e H)
    as (Hc & _ & Hd & _).
  split; [exact Hc | exact Hd].
Defined.


(** X6.  The loop drops a transaction in exactly three cases: it is
    already in the ledger, its total is in another currency than the
    account, or it is a currency conversion of which neither leg is in the
    account currency.  The last two write one log line, unless the
    transaction is already in the ledger, which is checked first and is
    silent; a transaction that yields an entry writes no log line. *)
Theorem classify_drops (env : Env) (f : Fetched) (t : Trading212Transaction) :
  (snd (classify env f t) = []
   <-> already_imported f t || foreign_total f t || foreign_conversion f t = true)
  /\ (List.length (fst (classify env f t))
      = if negb (already_imported f t)
           && (foreign_total f t || foreign_conversion f t)
        then 1 else 0)
  /\ List.length (fst (classify env f t)) + List.length (snd (classify env f t)) <= 1.
Proof.
  unfold classify, already_imported, foreign_total, foreign_conversion.
  destruct (existsb _ (existingTransactions f)).
  { cbn. repeat split; lia. }
  destruct (truthy (totalCurrency t) && _).
  { cbn. repeat split; lia. }
  cbn [orb negb andb].
  destruct (action t); cbn [fst snd List.length].
  all: try (split; [split; intros H; discriminate | split; lia]).
  destruct (opt_eqb (conversionFromCurrency t) (accountCurrency f));
      [|destruct (opt_eqb (conversionToCurrency t) (accountCurrency f))];
      cbn [fst snd List.length negb andb];
      (split; [split; intros H; try discriminate; reflexivity | split; lia]).
Qed.

Lemma classify_drops_witness :
  snd (classify Samples.env (Samples.fetched []) (Samples.conversion "USD" "EUR")) = [].
Proof.
  apply (proj2 (proj1 (classify_drops Samples.env (Samples.fetched [])
                         (Samples.conversion "USD" "EUR")))).
  reflexivity.
Defined.

(** ** The memo of a trade *)











Lemma N_toString_first_digit (n : N) :
  exists (d : N) (r : string), (d < 10)%N /\ N_toString n = String (digit_char d) r.
Proof.
  destruct (N_toString_digits n) as [Ha _].
  pose proof (N_toString_nonempty n) as Hne.
  destruct (N_toString n) as [|c r]; [contradiction|].
  cbn [all_digits] in Ha.
  destruct (digit_of 10 c) as [d|] eqn:E; [|discriminate].
  destruct (digit_of_inv c d E) as [-> Hd].
  exists d, r. split; [exact Hd | reflexivity].
Qed.

(** The memo of a trade never looks like the memo of a dividend. *)
Lemma stock_memo_not_dividend (t : Trading212Transaction) :
  startsWith (stock_memo t) "Dividend " = false.
Proof.
  unfold stock_memo, show_number.
  destruct (shareCount t) as [[q|s|]|]; try reflexivity.
  - unfold Number_toString. destruct (Qis_neg q); [reflexivity|].
    destruct (N_toString_first_digit
                (Z.to_N (Z.abs (Qnum q)) / N.pos (Qden q))) as (d & r & Hd & ->).
    assert (C : (d = 0 \/ d = 1 \/ d = 2 \/ d = 3 \/ d = 4 \/ d = 5 \/ d = 6
                 \/ d = 7 \/ d = 8 \/ d = 9)%N) by lia.
    repeat (destruct C as [-> | C]; [reflexivity|]). subst d. reflexivity.
  - destruct s; reflexivity.
Qed.

Lemma classified_not_replayed (env : Env) (f : Fetched) (t : Trading212Transaction)
    (e : Transaction) :
  In e (snd (classify env f t)) -> not_replayed e = negb (is_trade (action t)).
Proof.
  unfold classify.
  destruct (existsb _ (existingTransactions f)); [intros []|].
  destruct (truthy (totalCurrency t) && _); [intros []|].
  assert (Hv : opt_startsWith (Some (import_id_of t)) VERSIONED_IMPORT_PREFIX = true)
    by apply createImportId_versioned.
  pose proof (stock_memo_not_dividend t) as Hm.
  destruct (action t); cbn [snd In is_trade negb].
  all: try (intros [<- | []]; reflexivity).
  - destruct (gt _ (of_Z 0)); intros [<- | []]; unfold not_replayed;
      cbn [payee_name import_id memo with_subtransactions with_approved
           with_payee_id with_category new_transaction opt_startsWith];
      cbn [opt_startsWith] in Hv; rewrite Hv, Hm; reflexivity.
  - destruct (gt _ (of_Z 0)); intros [<- | []]; unfold not_replayed;
      cbn [payee_name import_id memo with_subtransactions with_approved
           with_payee_id with_category new_transaction opt_startsWith];
      cbn [opt_startsWith] in Hv; rewrite Hv, Hm; reflexivity.
  - destruct (opt_eqb (conversionFromCurrency t) (accountCurrency f));
      [|destruct (opt_eqb (conversionToCurrency t) (accountCurrency f))];
      cbn [snd In].
    + intros [<- | []]; reflexivity.
    + intros [<- | []]; reflexivity.
    + intros [].
Qed.

(** X8.  Of the entries that classification produces, the replay reads
    those of market buys and sells and no other: deposits, withdrawals,
    interest, conversions and card costs have no stock payee, and the memo
    of a dividend starts with the word the replay filters on.  Such an
    entry leaves every position as it is. *)
Theorem replay_reads_trades_only (env : Env) (f : Fetched) (t : Trading212Transaction)
    (e : Transaction) :
  In e (snd (classify env f t)) ->
  not_replayed e = negb (is_trade (action t))
  /\ (is_trade (action t) = false ->
      forall ynabPositions : list (string * Position),
        replay_entry ynabPositions e = Ok ynabPositions).
Proof.
  intros Hin. pose proof (classified_not_replayed env f t e Hin) as H.
  split; [exact H|].
  intros Hn m. unfold replay_entry. rewrite H, Hn. reflexivity.
Qed.

Lemma replay_reads_trades_only_witness :
  exists e : Transaction,
    In e (snd (classify Samples.env (Samples.fetched [])
                 (Samples.source Dividend (of_Z 1230) None)))
    /\ replay_entry [] e = Ok [].
Proof.
  assert (H : exists e : Transaction,
             In e (snd (classify Samples.env (Samples.fetched [])
                          (Samples.source Dividend (of_Z 1230) None)))).
  { vm_compute. eexists. left. reflexivity. }
  destruct H as [e H]. exists e. split; [exact H|].
  exact (proj2 (replay_reads_trades_only Samples.env (Samples.fetched [])
                  (Samples.source Dividend (of_Z 1230) None) e H) eq_refl []).
Defined.

(** ** Errors of the replay and of the run *)

Lemma replay_entry_error (m : list (string * Position)) (x : Transaction) (err : Error) :
  replay_entry m x = Throw err ->
  err = MemoError (memo x) /\ not_replayed x = false
  /\ bind (memo x) match_memo = None.
Proof.
  unfold replay_entry. destruct (not_replayed x); [discriminate|].
  destruct (bind (memo x) match_memo) as [[shares i]|]; [discriminate|].
  intros H. injection H as <-. repeat split.
Qed.

Lemma replay_error (l : list Transaction) (m : list (string * Position)) (err : Error) :
  replay m l = Throw err ->
  exists x : Transaction,
    In x l /\ err = MemoError (memo x) /\ not_replayed x = false
    /\ bind (memo x) match_memo = None.
Proof.
  revert m. induction l as [|x l IH]; intros m; cbn [replay]; [discriminate|].
  destruct (replay_entry m x) as [m'|e] eqn:E.
  - intros H. destruct (IH m' H) as (y & Hin & Hy).
    exists y. split; [right; exact Hin | exact Hy].
  - intros H. injection H as <-. exists x.
    split; [left; reflexivity | exact (replay_entry_error m x e E)].
Qed.

Lemma replay_unreadable (l : list Transaction) (x : Transaction) :
  In x l -> not_replayed x = false -> bind (memo x) match_memo = None ->
  forall m : list (string * Position), exists err : Error, replay m l = Throw err.
Proof.
  intros Hin Hr Hm. induction l as [|y l IH]; [destruct Hin|].
  intros m. cbn [replay].
  destruct (replay_entry m y) as [m'|e] eqn:E; [|exists e; reflexivity].
  destruct Hin as [-> | Hin]; [|exact (IH Hin m')].
  unfold replay_entry in E. rewrite Hr, Hm in E. discriminate.
Qed.

Lemma mark_position_ok (env : Env) (today : string) (f : Fetched)
    (t212Positions : list (string * T212Position)) (isin_ : string) (p : Position) :
  exists mk : Mark, mark_position env today f t212Positions isin_ p = Ok mk.
Proof.
  unfold mark_position.
  destruct (le (quantity p) (of_Z 0)); [eexists; reflexivity|].
  destruct (find _ (instruments f)) as [i|] eqn:Hfind; [|eexists; reflexivity].
  apply find_some in Hfind. destruct Hfind as [_ Hc].
  apply andb_true_iff in Hc. destruct Hc as [_ Hhas].
  apply Map_has_get in Hhas. destruct Hhas as [tp ->].
  destruct (truthy (unclearedId p)); eexists; reflexivity.
Qed.

Lemma mark_all_ok (env : Env) (today : string) (f : Fetched)
    (t212Positions : list (string * T212Position)) (m : list (string * Position)) :
  exists adds updates : list Transaction,
    mark_all env today f t212Positions m = Ok (adds, updates).
Proof.
  induction m as [|[i p] m IH]; cbn [mark_all]; [eexists; eexists; reflexivity|].
  destruct (mark_position_ok env today f t212Positions i p) as [mk ->].
  destruct IH as (adds & updates & ->).
  destruct mk; eexists; eexists; reflexivity.
Qed.

Lemma classify_all_In (env : Env) (f : Fetched) (ts : list Trading212Transaction)
    (t : Trading212Transaction) (e : Transaction) :
  In t ts -> In e (snd (classify env f t)) -> In e (snd (classify_all env f ts)).
Proof.
  intros Ht He. induction ts as [|t' ts IH]; [destruct Ht|].
  cbn [classify_all].
  destruct (classify env f t') as [l a] eqn:E.
  destruct (classify_all env f ts) as [l' a']. cbn [snd] in *.
  apply in_or_app. destruct Ht as [-> | Ht].
  - left. rewrite E in He. exact He.
  - right. exact (IH Ht).
Qed.

Lemma classify_all_inv (env : Env) (f : Fetched) (ts : list Trading212Transaction)
    (e : Transaction) :
  In e (snd (classify_all env f ts)) ->
  exists t : Trading212Transaction, In t ts /\ In e (snd (classify env f t)).
Proof.
  induction ts as [|t ts IH]; cbn [classify_all]; [intros []|].
  destruct (classify env f t) as [l a] eqn:E.
  destruct (classify_all env f ts) as [l' a']. cbn [snd] in *.
  intros H. apply in_app_or in H. destruct H as [H | H].
  - exists t. split; [left; reflexivity | rewrite E; exact H].
  - destruct (IH H) as (t' & Ht & He). exists t'. split; [right; exact Ht | exact He].
Qed.

Lemma filter_logs (logs : list string) : filter is_call (map ConsoleLog logs) = [].
Proof. induction logs as [|l logs IH]; [reflexivity | exact IH]. Qed.

Lemma rejected_no_calls (env : Env) (today : string)
    (ts : list Trading212Transaction) (f : Fetched) (err : Error) :
  snd (reconcile env today ts f) = Rejected err ->
  filter is_call (fst (reconcile env today ts f)) = [].
Proof.
  unfold reconcile.
  destruct (otherVersion (existingTransactions f)); [reflexivity|].
  destruct (classify_all env f ts) as [logs adds].
  destruct (replay [] (existingTransactions f ++ adds)) as [m|e].
  - destruct (mark_all_ok env today f (t212Positions_of (openPositions f)) m)
      as (a & u & ->).
    cbn [snd]. discriminate.
  - intros _. apply filter_logs.
Qed.

(** X9.  A run is rejected for two reasons only: an entry of another
    version in the ledger, or a replayed entry, of the ledger or just
    classified, whose memo the pattern does not match.  The second loop
    never fails.  A rejected run has made no call to the ledger: all it
    has done is log. *)
Theorem rejected_runs (env : Env) (today : string)
    (ts : list Trading212Transaction) (f : Fetched) (err : Error) :
  snd (reconcile env today ts f) = Rejected err ->
  filter is_call (fst (reconcile env today ts f)) = []
  /\ ((exists e : Transaction,
          In e (existingTransactions f)
          /\ opt_startsWith (import_id e) IMPORT_PREFIX = true
          /\ opt_startsWith (import_id e) VERSIONED_IMPORT_PREFIX = false
          /\ err = OtherVersionError (import_id e))
      \/ (exists e : Transaction,
             In e (existingTransactions f ++ snd (classify_all env f ts))%list
             /\ not_replayed e = false
             /\ bind (memo e) match_memo = None
             /\ err = MemoError (memo e))).
Proof.
  unfold reconcile.
  destruct (otherVersion (existingTransactions f)) as [other|] eqn:Ho.
  - cbn [fst snd]. intros H. injection H as <-. split; [reflexivity|]. left.
    unfold otherVersion in Ho. apply find_some in Ho. destruct Ho as [Hin Hc].
    apply andb_true_iff in Hc. destruct Hc as [Hp Hv]. apply negb_true_iff in Hv.
    exists other. repeat split; assumption.
  - destruct (classify_all env f ts) as [logs adds]. cbn [snd].
    destruct (replay [] (existingTransactions f ++ adds)) as [m|e] eqn:Hr.
    + destruct (mark_all_ok env today f (t212Positions_of (openPositions f)) m)
        as (a & u & ->).
      cbn [snd]. discriminate.
    + cbn [fst snd]. intros H. injection H as <-.
      split; [apply filter_logs|]. right.
      destruct (replay_error _ _ _ Hr) as (x & Hin & He & Hn & Hm).
      exists x. repeat split; assumption.
Qed.

Lemma rejected_runs_witness :
  let bad := Samples.stock_entry "e1" (createImportId "x") Cleared (-1000)
               "ten shares of AAPL" in
  filter is_call (fst (reconcile Samples.env "2024-03-06" [] (Samples.fetched [bad])))
  = [].
Proof.
  intros bad.
  apply (proj1 (rejected_runs Samples.env "2024-03-06" [] (Samples.fetched [bad])
                  (MemoError (Some "ten shares of AAPL")) ltac:(vm_compute; reflexivity))).
Defined.

(** X10.  A market buy or sell whose share count is missing stops the
    whole run: its memo starts with the word [undefined], which the
    pattern of the replay does not match, so the run is rejected before
    any call to the ledger, whatever else the export holds. *)
Theorem trade_without_shares_rejects (env : Env) (today : string)
    (ts : list Trading212Transaction) (f : Fetched) (t : Trading212Transaction) :
  In t ts -> is_trade (action t) = true -> dispatched f t -> shareCount t = None ->
  (exists err : Error, snd (reconcile env today ts f) = Rejected err)
  /\ filter is_call (fst (reconcile env today ts f)) = [].
Proof.
  intros Hin Htrade Hd Hs.
  assert (Hrej : exists err : Error, snd (reconcile env today ts f) = Rejected err).
  { unfold reconcile.
    destruct (otherVersion (existingTransactions f)); [eexists; reflexivity|].
    assert (He : exists e : Transaction,
               In e (snd (classify env f t)) /\ memo e = Some (stock_memo t)).
    { destruct Hd as [Hnew Hcur]. unfold classify. rewrite Hnew, Hcur.
      destruct (action t); try discriminate; cbn [snd];
        destruct (gt _ (of_Z 0)); eexists; (split; [left; reflexivity | reflexivity]). }
    destruct He as (e & He & Hmemo).
    pose proof (classify_all_In env f ts t e Hin He) as Hall.
    destruct (classify_all env f ts) as [logs adds]. cbn [snd] in Hall |- *.
    assert (Hthrow : exists err : Error,
               replay [] (existingTransactions f ++ adds) = Throw err).
    { apply (replay_unreadable _ e).
      - apply in_or_app. right. exact Hall.
      - rewrite (classified_not_replayed env f t e He), Htrade. reflexivity.
      - rewrite Hmemo. unfold stock_memo, show_number. rewrite Hs. reflexivity. }
    destruct Hthrow as [err ->]. exists err. reflexivity. }
  split; [exact Hrej|].
  destruct Hrej as [err Herr]. exact (rejected_no_calls env today ts f err Herr).
Qed.

Lemma trade_without_shares_rejects_witness :
  exists err : Error,
    snd (reconcile Samples.env "2024-03-06"
           [Samples.trade_without_shares] (Samples.fetched []))
    = Rejected err.
Proof.
  apply (proj1 (trade_without_shares_rejects Samples.env "2024-03-06"
                  [Samples.trade_without_shares] (Samples.fetched [])
                  Samples.trade_without_shares
                  (or_introl eq_refl) eq_refl (conj eq_refl eq_refl) eq_refl)).
Defined.

(** ** The calls of a run *)

Lemma mark_all_entries (env : Env) (today : string) (f : Fetched)
    (t212Positions : list (string * T212Position)) (m : list (string * Position))
    (adds updates : list Transaction) :
  mark_all env today f t212Positions m = Ok (adds, updates) ->
  (forall e : Transaction,
      In e adds ->
      entry_id e = None /\ cleared e = Uncleared /\ date e = today
      /\ exists seed : string, import_id e = Some (createImportId seed))
  /\ (forall e : Transaction,
         In e updates ->
         truthy (entry_id e) = true /\ cleared e = Uncleared /\ date e = today
         /\ import_id e = None)
  /\ List.length adds + List.length updates <= List.length m.
Proof.
  revert adds updates. induction m as [|[i p] m IH]; intros adds updates; cbn [mark_all].
  - intros H. injection H as <- <-.
    split; [intros e []|]. split; [intros e []|]. simpl. lia.
  - destruct (mark_position env today f t212Positions i p) as [mk|err] eqn:Hmk;
      [|discriminate].
    destruct (mark_all env today f t212Positions m) as [[a u]|err]; [|discriminate].
    destruct (IH a u eq_refl) as (Ha & Hu & Hl).
    assert (Hshape :
              match mk with
              | Skip => True
              | ToAdd e =>
                  entry_id e = None /\ cleared e = Uncleared /\ date e = today
                  /\ exists seed : string, import_id e = Some (createImportId seed)
              | ToUpdate e =>
                  truthy (entry_id e) = true /\ cleared e = Uncleared
                  /\ date e = today /\ import_id e = None
              end).
    { unfold mark_position in Hmk.
      destruct (le (quantity p) (of_Z 0)); [injection Hmk as <-; exact I|].
      destruct (find _ (instruments f)); [|injection Hmk as <-; exact I].
      destruct (Map_get t212Positions _); [|discriminate].
      destruct (truthy (unclearedId p)) eqn:Ht; injection Hmk as <-.
      - repeat split. exact Ht.
      - repeat split. eexists. reflexivity. }
    destruct mk; intros H; injection H as <- <-; cbn [List.length].
    + split; [exact Ha|]. split; [exact Hu | lia].
    + split; [|split; [exact Hu | lia]].
      intros e [<- | He]; [exact Hshape | exact (Ha e He)].
    + split; [exact Ha|]. split; [|lia].
      intros e [<- | He]; [exact Hshape | exact (Hu e He)].
Qed.




(** X12.  Every entry that a run creates has no ledger id and an import
    identity of the current version, and every entry that it updates has a
    ledger id and no import identity: what a run writes never makes the
    version check of a later run fail. *)
Theorem written_entries (env : Env) (today : string)
    (ts : list Trading212Transaction) (f : Fetched) :
  (forall (budget : string) (entries : list Transaction),
      In (CreateTransactions budget entries) (fst (reconcile env today ts f)) ->
      (forall e : Transaction,
          In e entries ->
          entry_id e = None
          /\ opt_startsWith (import_id e) VERSIONED_IMPORT_PREFIX = true)
      /\ otherVersion entries = None)
  /\ (forall (budget : string) (entries : list Transaction),
         In (UpdateTransactions budget entries) (fst (reconcile env today ts f)) ->
         (forall e : Transaction,
             In e entries -> truthy (entry_id e) = true /\ import_id e = None)
         /\ otherVersion entries = None).
Proof.
  assert (Hother : forall entries : list Transaction,
             (forall e : Transaction,
                 In e entries ->
                 opt_startsWith (import_id e) IMPORT_PREFIX
                 && negb (opt_startsWith (import_id e) VERSIONED_IMPORT_PREFIX) = false) ->
             otherVersion entries = None).
  { intros entries H. unfold otherVersion.
    destruct (find _ entries) as [x|] eqn:E; [|reflexivity].
    apply find_some in E. destruct E as [Hin Hc]. rewrite (H x Hin) in Hc.
    discriminate. }
  unfold reconcile.
  destruct (otherVersion (existingTransactions f)).
  { split; intros b es []. }
  pose proof (classify_all_inv env f ts) as Hinv.
  destruct (classify_all env f ts) as [logs adds]. cbn [snd] in Hinv.
  assert (Hlogs : forall (ev : Event) (l : list string),
             In ev (map ConsoleLog l) -> exists s : string, ev = ConsoleLog s).
  { intros ev l H. apply in_map_iff in H. destruct H as (s & <- & _).
    exists s. reflexivity. }
  destruct (replay [] (existingTransactions f ++ adds)) as [m|e].
  2:{ cbn [fst]. split; intros b es H; destruct (Hlogs _ _ H) as [s Hs]; discriminate. }
  destruct (mark_all env today f (t212Positions_of (openPositions f)) m)
    as [[marks updates]|e] eqn:Hm.
  2:{ cbn [fst]. split; intros b es H; destruct (Hlogs _ _ H) as [s Hs]; discriminate. }
  destruct (mark_all_entries _ _ _ _ _ _ _ Hm) as (Ha & Hu & _).
  cbn [fst].
  assert (Hadds : forall e : Transaction,
             In e (adds ++ marks)%list ->
             entry_id e = None
             /\ opt_startsWith (import_id e) VERSIONED_IMPORT_PREFIX = true).
  { intros e He. apply in_app_or in He. destruct He as [He | He].
    - destruct (Hinv e He) as (t & _ & Hc).
      destruct (proj2 (classify_entries_shape env f t) e Hc) as (_ & _ & _ & Hid & _ & Hv).
      split; assumption.
    - destruct (Ha e He) as (Hid & _ & _ & seed & Hs). split; [exact Hid|].
      rewrite Hs. apply createImportId_versioned. }
  split.
  - intros b es H. apply in_app_or in H. destruct H as [H | H].
    { destruct (Hlogs _ _ H) as [s Hs]; discriminate. }
    apply in_app_or in H. destruct H as [H | H].
    + destruct (adds ++ marks)%list as [|x l] eqn:E; [destruct H|].
      destruct H as [H | []]. injection H as _ <-.
      split; [exact Hadds|]. apply Hother. intros e He.
      rewrite (proj2 (Hadds e He)). apply andb_false_r.
    + destruct updates; [destruct H|]. destruct H as [H | []]. discriminate.
  - intros b es H. apply in_app_or in H. destruct H as [H | H].
    { destruct (Hlogs _ _ H) as [s Hs]; discriminate. }
    apply in_app_or in H. destruct H as [H | H].
    + destruct (adds ++ marks)%list; [destruct H|]. destruct H as [H | []]. discriminate.
    + destruct updates as [|x l] eqn:E; [destruct H|].
      destruct H as [H | []]. injection H as _ <-.
      split; [intros e He; destruct (Hu e He) as (H1 & _ & _ & H2); split; assumption|].
      apply Hother. intros e He. destruct (Hu e He) as (_ & _ & _ & ->). reflexivity.
Qed.

Lemma written_entries_witness :
  exists (budget : string) (entries : list Transaction),
    In (CreateTransactions budget entries)
       (fst (reconcile Samples.env "2024-03-06"
               [Samples.source Deposit (of_Z 100000) None] (Samples.fetched [])))
    /\ entries <> [] /\ otherVersion entries = None.
Proof.
  assert (H : exists (budget : string) (entries : list Transaction),
             In (CreateTransactions budget entries)
                (fst (reconcile Samples.env "2024-03-06"
                        [Samples.source Deposit (of_Z 100000) None]
                        (Samples.fetched [])))
             /\ entries <> []).
  { vm_compute. eexists. eexists. split.
    - repeat (first [left; reflexivity | right]).
    - discriminate. }
  destruct H as (budget & entries & H & Hne). exists budget, entries.
  split; [exact H|]. split; [exact Hne|].
  exact (proj2 (proj1 (written_entries Samples.env "2024-03-06"
                         [Samples.source Deposit (of_Z 100000) None]
                         (Samples.fetched [])) budget entries H)).
Defined.

(** ** More on the replay *)

Lemma update_position_NaN (p : Position) (t : Transaction) (qty : number) :
  totalAmount p = NaN -> totalAmount (update_position p t qty) = NaN.
Proof.
  intros H. unfold update_position.
  destruct (cleared t); [|destruct (entry_id t); exact H|exact H].
  destruct (gt _ (of_Z 0)); cbn [totalAmount]; rewrite H; reflexivity.
Qed.

(** X13.  A cost basis that is [NaN] stays [NaN]: no entry replayed later,
    purchase or sale, brings it back to a number. *)
Theorem NaN_cost_basis_is_sticky (ts : list Transaction)
    (m m' : list (string * Position)) (isin_ : string) :
  replay m ts = Ok m' ->
  totalAmount (held m isin_) = NaN ->
  totalAmount (held m' isin_) = NaN.
Proof.
  revert m. induction ts as [|t ts IH]; intros m; cbn [replay].
  - intros H. injection H as <-. trivial.
  - destruct (replay_entry m t) as [m1|e] eqn:E; [|discriminate].
    intros H Hn. apply (IH m1 H).
    unfold replay_entry in E. destruct (not_replayed t); [injection E as <-; exact Hn|].
    destruct (bind (memo t) match_memo) as [[shares i]|]; [|discriminate].
    injection E as <-.
    destruct (String.eqb_spec i isin_) as [Heq | Hne].
    + subst i. rewrite held_set_same. apply update_position_NaN.
      unfold held in Hn. exact Hn.
    + rewrite held_set_other by exact Hne. exact Hn.
Qed.

Lemma NaN_cost_basis_is_sticky_witness :
  let sale := Samples.stock_entry "e2" (createImportId "sale") Cleared 450
                "4x AAPL [US0378331005]" in
  let buy := Samples.stock_entry "e3" (createImportId "buy") Cleared (-1000)
               "10x AAPL [US0378331005]" in
  exists m m' : list (string * Position),
    replay [] [sale] = Ok m /\ replay m [buy] = Ok m'
    /\ totalAmount (held m' "US0378331005") = NaN.
Proof.
  intros sale buy.
  set (m := match replay [] [sale] with Ok m => m | Throw _ => [] end).
  set (m' := match replay m [buy] with Ok m => m | Throw _ => [] end).
  assert (H1 : replay [] [sale] = Ok m) by (vm_compute; reflexivity).
  assert (H2 : replay m [buy] = Ok m') by (vm_compute; reflexivity).
  exists m, m'. split; [exact H1|]. split; [exact H2|].
  apply (NaN_cost_basis_is_sticky [buy] m m' "US0378331005" H2).
  vm_compute. reflexivity.
Defined.

Lemma Qred_zero (x : Q) : (x == 0)%Q -> Qred x = inject_Z 0.
Proof. intros H. rewrite (Qred_complete _ _ H). reflexivity. Qed.

(** X14.  Selling all that is held closes the position: when the share
    count of a cleared sale is the quantity held, not zero, the quantity
    and the cost basis both become 0, and the second loop then skips the
    security. *)
Theorem selling_all_closes (env : Env) (today : string) (f : Fetched)
    (t212Positions : list (string * T212Position))
    (ynabPositions : list (string * Position)) (t : Transaction)
    (shares isin_ : string) (h cost : Q) :
  not_replayed t = false ->
  bind (memo t) match_memo = Some (shares, isin_) ->
  cleared t = Cleared ->
  gt (ToNumber (transactionAmount t)) (of_Z 0) = true ->
  quantity (held ynabPositions isin_) = Num h ->
  totalAmount (held ynabPositions isin_) = Num cost ->
  parseT212StockQuantity (inl shares) = Num h ->
  ~ (h == 0)%Q ->
  exists ynabPositions' : list (string * Position),
    replay_entry ynabPositions t = Ok ynabPositions'
    /\ quantity (held ynabPositions' isin_) = of_Z 0
    /\ totalAmount (held ynabPositions' isin_) = of_Z 0
    /\ mark_position env today f t212Positions isin_ (held ynabPositions' isin_)
       = Ok Skip.
Proof.
  intros Hf Hm Hc Hsale Hq Ht Hs Hh.
  eexists. split; [apply (replay_entry_trade _ _ _ _ Hf Hm)|].
  rewrite held_set_same. unfold update_position. rewrite Hc, Hsale, Hq, Ht, Hs.
  cbn [quantity totalAmount].
  assert (Hz : Qis_zero h = false).
  { unfold Qis_zero. apply Z.eqb_neq. intros H0. apply Hh.
    destruct h as [n d]. simpl in H0. subst n. reflexivity. }
  assert (Hquantity : sub (Num h) (Num h) = of_Z 0).
  { unfold sub, neg, add, of_Z. f_equal. apply Qred_zero.
    rewrite Qred_correct. ring. }
  assert (Hcost : Math_round (mul (Num cost) (sub (of_Z 1) (div (Num h) (Num h))))
                  = of_Z 0).
  { unfold div. rewrite Hz. unfold sub, neg, add, mul, of_Z.
    assert (E : Qred (cost * Qred (inject_Z 1 + Qred (- Qred (h / h)))) = inject_Z 0).
    { apply Qred_zero. rewrite !Qred_correct.
      assert (Hone : (h / h == 1)%Q) by (apply Qmult_inv_r; exact Hh).
      rewrite Hone. unfold inject_Z. ring. }
    rewrite E. reflexivity. }
  split; [exact Hquantity|]. split; [exact Hcost|].
  unfold mark_position. cbn [quantity]. rewrite Hquantity. reflexivity.
Qed.

Lemma selling_all_closes_witness :
  let bought := [("US0378331005",
                  {| quantity := of_Z 100000000000; totalAmount := of_Z 1000;
                     unclearedId := None |})] in
  let sale := Samples.stock_entry "e2" (createImportId "sale") Cleared 1300
                "10x AAPL [US0378331005]" in
  exists m' : list (string * Position),
    replay_entry bought sale = Ok m'
    /\ quantity (held m' "US0378331005") = of_Z 0
    /\ totalAmount (held m' "US0378331005") = of_Z 0.
Proof.
  intros bought sale.
  destruct (selling_all_closes Samples.env "2024-03-06" (Samples.fetched []) []
              bought sale "10" "US0378331005"
              (inject_Z 100000000000) (inject_Z 1000))
    as (m' & Hr & Hq & Ht & _).
  - vm_compute. reflexivity.
  - vm_compute. reflexivity.
  - reflexivity.
  - reflexivity.
  - reflexivity.
  - reflexivity.
  - vm_compute. reflexivity.
  - discriminate.
  - exists m'. split; [exact Hr|]. split; assumption.
Defined.

(** ** Entries that are not cleared *)

(** X15.  Only cleared entries move a position.  A replayed entry that is
    uncleared and has a ledger id leaves quantity and cost basis alone and
    becomes the entry to update; when the quantity held is positive and
    the security has a live position, the second loop then updates that
    entry (by its id, with no import identity) instead of creating one.
    A reconciled entry changes nothing, a reconciled purchase included. *)
Theorem uncleared_entry_is_updated (env : Env) (today : string) (f : Fetched)
    (t212Positions : list (string * T212Position))
    (ynabPositions : list (string * Position)) (t : Transaction)
    (shares isin_ : string) :
  not_replayed t = false ->
  bind (memo t) match_memo = Some (shares, isin_) ->
  exists ynabPositions' : list (string * Position),
    replay_entry ynabPositions t = Ok ynabPositions'
    /\ (cleared t <> Cleared ->
        quantity (held ynabPositions' isin_) = quantity (held ynabPositions isin_)
        /\ totalAmount (held ynabPositions' isin_)
           = totalAmount (held ynabPositions isin_))
    /\ (cleared t = Reconciled ->
        held ynabPositions' isin_ = held ynabPositions isin_)
    /\ (forall ledger_id : string,
           cleared t = Uncleared -> entry_id t = Some ledger_id ->
           unclearedId (held ynabPositions' isin_) = Some ledger_id
           /\ (ledger_id <> "" ->
               le (quantity (held ynabPositions isin_)) (of_Z 0) = false ->
               (exists i : Instrument,
                   In i (instruments f) /\ i_isin i = isin_
                   /\ Map_has t212Positions (i_ticker i) = true) ->
               exists e : Transaction,
                 mark_position env today f t212Positions isin_
                   (held ynabPositions' isin_) = Ok (ToUpdate e)
                 /\ entry_id e = Some ledger_id /\ import_id e = None)).
Proof.
  intros Hf Hm.
  eexists. split; [apply (replay_entry_trade _ _ _ _ Hf Hm)|].
  rewrite held_set_same. unfold update_position.
  split; [|split].
  - intros Hc. destruct (cleared t); [contradiction| |split; reflexivity].
    destruct (entry_id t); split; reflexivity.
  - intros ->. reflexivity.
  - intros ledger_id -> ->. cbn [unclearedId]. split; [reflexivity|].
    intros Hne Hq (i & Hin & Hi & Hhas).
    unfold mark_position. cbn [quantity totalAmount unclearedId]. rewrite Hq.
    destruct (find (fun i0 => (i_isin i0 =? isin_) && Map_has t212Positions (i_ticker i0))
                (instruments f)) as [j|] eqn:Hfind.
    + apply find_some in Hfind. destruct Hfind as [_ Hc].
      apply andb_true_iff in Hc. destruct Hc as [_ Hj].
      apply Map_has_get in Hj. destruct Hj as [tp ->].
      assert (Ht : truthy (Some ledger_id) = true).
      { unfold truthy. apply negb_true_iff. apply String.eqb_neq. exact Hne. }
      rewrite Ht. eexists. split; [reflexivity|]. split; reflexivity.
    + exfalso. apply (find_none _ _ Hfind) in Hin.
      rewrite Hi, String.eqb_refl, Hhas in Hin. discriminate.
Qed.

Lemma uncleared_entry_is_updated_witness :
  let mark := Samples.stock_entry "m1" (createImportId "mark") Uncleared 1100
                "10x AAPL [US0378331005]" in
  exists m' : list (string * Position),
    replay_entry [] mark = Ok m'
    /\ unclearedId (held m' "US0378331005") = Some "m1".
Proof.
  intros mark.
  destruct (uncleared_entry_is_updated Samples.env "2024-03-06" (Samples.fetched [])
              [] [] mark "10" "US0378331005")
    as (m' & Hr & _ & _ & Hu).
  - vm_compute. reflexivity.
  - vm_compute. reflexivity.
  - exists m'. split; [exact Hr|].
    exact (proj1 (Hu "m1" eq_refl eq_refl)).
Defined.

(** ** The mark-to-market amount *)

(** X16.  When the ledger holds exactly the quantity of the live position
    (positive), the mark-to-market entry is worth the cost basis plus the
    live profit and loss: the proportion is 1 and nothing is lost in the
    rounding.  The entry is uncleared, dated today and approved. *)
Theorem mark_full_position (env : Env) (today : string) (f : Fetched)
    (t212Positions : list (string * T212Position)) (isin_ : string)
    (ynabPosition : Position) (instrument : Instrument) (q : Q) (cost ppl : Z) :
  quantity ynabPosition = Num q ->
  totalAmount ynabPosition = of_Z cost ->
  le (Num q) (of_Z 0) = false ->
  find (fun i => (i_isin i =? isin_) && Map_has t212Positions (i_ticker i))
       (instruments f) = Some instrument ->
  Map_get t212Positions (i_ticker instrument)
  = Some {| t212_quantity := Num q; t212_ppl := of_Z ppl |} ->
  exists (mk : Mark) (e : Transaction),
    mark_position env today f t212Positions isin_ ynabPosition = Ok mk
    /\ (mk = ToAdd e \/ mk = ToUpdate e)
    /\ amount e = Some (of_Z (cost + ppl))
    /\ cleared e = Uncleared /\ date e = today /\ approved e = Some true
    /\ payee_name e = Some ("Stock: " ++ i_name instrument).
Proof.
  intros Hq Hcost Hpos Hfind Hget.
  assert (Hz : Qis_zero q = false).
  { unfold Qis_zero. apply Z.eqb_neq. intros H0.
    unfold le, of_Z in Hpos. destruct q as [n d]. simpl in H0. subst n.
    discriminate Hpos. }
  assert (Hnz : ~ (q == 0)%Q).
  { intros H. unfold Qis_zero in Hz. apply Z.eqb_neq in Hz. apply Hz.
    unfold Qeq in H. simpl in H. lia. }
  assert (Hamount :
            add (of_Z cost)
                (Math_round (mul (div (Num q) (Num q)) (of_Z ppl)))
            = of_Z (cost + ppl)).
  { unfold div. rewrite Hz. unfold mul, Math_round, add, of_Z.
    assert (E : Qred (Qred (q / q) * inject_Z ppl) = inject_Z ppl).
    { rewrite <- (Qred_inject_Z ppl) at 2. apply Qred_complete.
      rewrite Qred_correct.
      assert (Hone : (q / q == 1)%Q) by (apply Qmult_inv_r; exact Hnz).
      rewrite Hone. ring. }
    rewrite E, Qfloor_half. f_equal.
    rewrite <- (Qred_inject_Z (cost + ppl)). apply Qred_complete.
    rewrite inject_Z_plus. reflexivity. }
  unfold mark_position. rewrite Hq, Hpos, Hfind, Hget, Hcost.
  cbn [t212_quantity t212_ppl]. rewrite Hamount.
  destruct (truthy (unclearedId ynabPosition)); eexists; eexists;
    (split; [reflexivity|]).
  - split; [right; reflexivity|]. repeat split.
  - split; [left; reflexivity|]. repeat split.
Qed.

Lemma mark_full_position_witness :
  exists (mk : Mark) (e : Transaction),
    mark_position Samples.env "2024-03-06" Samples.live_fetched
      (t212Positions_of (openPositions Samples.live_fetched)) "US0378331005"
      {| quantity := of_Z 100000000000; totalAmount := of_Z 1000;
         unclearedId := None |} = Ok mk
    /\ (mk = ToAdd e \/ mk = ToUpdate e)
    /\ amount e = Some (of_Z 1250).
Proof.
  destruct (mark_full_position Samples.env "2024-03-06" Samples.live_fetched
              (t212Positions_of (openPositions Samples.live_fetched)) "US0378331005"
              {| quantity := of_Z 100000000000; totalAmount := of_Z 1000;
                 unclearedId := None |}
              {| i_isin := "US0378331005"; i_ticker := "AAPL_US_EQ";
                 i_name := "Apple"; i_shortName := "AAPL" |}
              (inject_Z 100000000000) 1000 250)
    as (mk & e & Hm & Hk & Ha & _).
  - reflexivity.
  - reflexivity.
  - reflexivity.
  - vm_compute. reflexivity.
  - vm_compute. reflexivity.
  - exists mk, e. split; [exact Hm|]. split; [exact Hk | exact Ha].
Defined.

(** ** Running again *)




(** ** The export *)

(** X18.  The export is validated as a whole and first: one record that
    does not pass the schema rejects the run with no event at all, even
    when the ledger holds entries of another version; otherwise there is
    one transaction per record, in order, and the run goes on with them. *)
Theorem export_validation (dayjs_utc : string -> Dayjs) (env : Env) (today : string)
    (records : list CsvRecord) (f : Fetched) :
  (parseTransactions dayjs_utc records = None
   <-> exists r : CsvRecord, In r records /\ parseTransaction dayjs_utc r = None)
  /\ ((exists r : CsvRecord, In r records /\ parseTransaction dayjs_utc r = None) ->
      syncAccount dayjs_utc env today records f = ([], Rejected ZodError))
  /\ (forall ts : list Trading212Transaction,
         parseTransactions dayjs_utc records = Some ts ->
         map (parseTransaction dayjs_utc) records = map Some ts
         /\ syncAccount dayjs_utc env today records f = reconcile env today ts f).
Proof.
  assert (Hiff : parseTransactions dayjs_utc records = None
                 <-> exists r : CsvRecord,
                       In r records /\ parseTransaction dayjs_utc r = None).
  { induction records as [|r rs IH]; cbn [parseTransactions].
    - split; [discriminate | intros (r & [] & _)].
    - destruct (parseTransaction dayjs_utc r) as [t|] eqn:E; cbn [bind].
      + destruct (parseTransactions dayjs_utc rs) as [ts|]; cbn [bind].
        * split; [discriminate|]. intros (x & [<- | Hx] & Hn); [congruence|].
          assert (H : @None (list Trading212Transaction) = None) by reflexivity.
          destruct IH as [_ IH]. specialize (IH (ex_intro _ x (conj Hx Hn))).
          discriminate.
        * split; [|reflexivity]. intros _.
          destruct IH as [IH _]. destruct (IH eq_refl) as (x & Hx & Hn).
          exists x. split; [right; exact Hx | exact Hn].
      + split; [|reflexivity]. intros _. exists r. split; [left; reflexivity | exact E]. }
  split; [exact Hiff|]. split.
  - intros H. apply Hiff in H. unfold syncAccount. rewrite H. reflexivity.
  - intros ts H. split; [|unfold syncAccount; rewrite H; reflexivity].
    clear Hiff. revert ts H. induction records as [|r rs IH]; intros ts;
      cbn [parseTransactions].
    + intros H. injection H as <-. reflexivity.
    + destruct (parseTransaction dayjs_utc r) as [t|] eqn:E; cbn [bind]; [|discriminate].
      destruct (parseTransactions dayjs_utc rs) as [ts'|]; cbn [bind]; [|discriminate].
      intros H. injection H as <-. cbn [map]. rewrite E, (IH ts' eq_refl). reflexivity.
Qed.

Lemma export_validation_witness :
  let old := Samples.stock_entry "e1" "T212-v13:0123456789abcdef0123456789a" Cleared
               (-1000) "10x AAPL [US0378331005]" in
  syncAccount Samples.dayjs_utc Samples.env "2024-03-06"
    [Samples.record "Deposit" "" "100.00" "GBP" "";
     Samples.record "Stock split" "" "0.00" "GBP" ""] (Samples.fetched [old])
  = ([], Rejected ZodError).
Proof.
  intros old.
  apply (proj1 (proj2 (export_validation Samples.dayjs_utc Samples.env "2024-03-06"
                         [Samples.record "Deposit" "" "100.00" "GBP" "";
                          Samples.record "Stock split" "" "0.00" "GBP" ""]
                         (Samples.fetched [old])))).
  exists (Samples.record "Stock split" "" "0.00" "GBP" "").
  split; [right; left; reflexivity | reflexivity].
Defined.

(** X19.  The optional text fields of a parsed transaction are never the
    empty string: an empty column is a missing field.  So a transaction
    whose currency column is empty is never dropped for its currency, and
    one whose currency column is filled is dropped exactly when it is not
    the account currency. *)
Theorem optional_fields (dayjs_utc : string -> Dayjs) (data : CsvRecord)
    (t : Trading212Transaction) :
  parseTransaction dayjs_utc data = Some t ->
  Forall (fun field => field <> Some "")
    [isin t; ticker t; name t; totalCurrency t; notes t;
     conversionFromCurrency t; conversionToCurrency t]
  /\ forall (f : Fetched) (currency : string),
       col_Currency_Total data = Some currency ->
       foreign_total f t
       = negb (currency =? "") && negb (currency =? accountCurrency f).
Proof.
  intros H.
  destruct (forallb present (columns data)) eqn:E;
    [|rewrite (parseTransaction_columns _ _ E) in H; discriminate].
  destruct (columns_present data E)
    as (c1 & c2 & c3 & c4 & c5 & c6 & c7 & c8 & c9 & c10 & c11 & c12 & c13 & c14
        & c15 & c16 & c17 & c18 & c19 & c20 & c21 & c22 & c23 & ->).
  unfold parseTransaction in H.
  cbn [col_Action col_Time col_ISIN col_Ticker col_Name col_No_of_shares
       col_Price_per_share col_Currency_Price_per_share col_Exchange_rate
       col_Result col_Currency_Result col_Total col_Currency_Total
       col_Withholding_tax col_Currency_Withholding_tax col_Notes col_ID
       col_Currency_conversion_from_amount
       col_Currency_Currency_conversion_from_amount
       col_Currency_conversion_to_amount
       col_Currency_Currency_conversion_to_amount
       col_Currency_conversion_fee col_Currency_Currency_conversion_fee
       bind] in H.
  destruct (nativeEnum c1) as [a|]; cbn [bind] in H; [|discriminate].
  injection H as <-.
  assert (Hopt : forall raw : string, optionalString raw <> Some "").
  { intros raw. unfold optionalString. destruct (raw =? "") eqn:Er; [discriminate|].
    intros Hs. injection Hs as ->. discriminate. }
  split.
  - cbn [isin ticker name totalCurrency notes conversionFromCurrency
         conversionToCurrency].
    repeat constructor; apply Hopt.
  - intros f currency Hc. cbn [col_Currency_Total] in Hc. injection Hc as <-.
    unfold foreign_total. cbn [totalCurrency]. unfold optionalString.
    destruct (c13 =? "") eqn:Er; [reflexivity|].
    unfold truthy, opt_eqb. rewrite Er. reflexivity.
Qed.

Lemma optional_fields_witness :
  exists t : Trading212Transaction,
    parseTransaction Samples.dayjs_utc (Samples.record "Deposit" "" "100.00" "" "")
    = Some t
    /\ foreign_total (Samples.fetched []) t = false.
Proof.
  assert (H : exists t : Trading212Transaction,
             parseTransaction Samples.dayjs_utc
               (Samples.record "Deposit" "" "100.00" "" "") = Some t).
  { vm_compute. eexists. reflexivity. }
  destruct H as [t H]. exists t. split; [exact H|].
  exact (proj2 (optional_fields Samples.dayjs_utc
                  (Samples.record "Deposit" "" "100.00" "" "") t H)
           (Samples.fetched []) "" eq_refl).
Defined.

(** ** Live positions *)





(** ** The amount the replay reads *)

Lemma stock_memo_has_x (t : Trading212Transaction) : includes (stock_memo t) "x" = true.
Proof.
  unfold stock_memo. rewrite includes_app.
  cbn [append includes]. change (Ascii.eqb "x" "x") with true.
  cbn [orb]. apply orb_true_r.
Qed.

(** X21.  For the entry of a trade the replay reads the stock leg: the
    amount of the entry plus the conversion fee when the entry is split,
    the amount of the entry otherwise.  With a split the fee is thus left
    out of what a purchase adds to the cost basis. *)
Theorem replay_reads_stock_leg (env : Env) (f : Fetched) (t : Trading212Transaction)
    (e : Transaction) :
  In e (snd (classify env f t)) -> is_trade (action t) = true ->
  let amount_ :=
    mul (Math_abs (total t))
        (of_Z (if action_eqb (action t) MarketSell then 1 else -1)) in
  transactionAmount e
  = Some (match conversionFee t with
          | Some fee => if gt fee (of_Z 0) then add amount_ fee else amount_
          | None => amount_
          end).
Proof.
  intros Hin Htrade. pose proof (stock_memo_has_x t) as Hx. revert Hin.
  unfold classify.
  destruct (existsb _ (existingTransactions f)); [intros []|].
  destruct (truthy (totalCurrency t) && _); [intros []|].
  destruct (action t); try discriminate; cbn [snd In];
    destruct (conversionFee t) as [fee|];
    try destruct (gt fee (of_Z 0)) eqn:Hfee;
    try (change (gt (of_Z 0) (of_Z 0)) with false; cbv iota);
    intros [<- | []]; unfold transactionAmount;
    cbn [subtransactions amount with_subtransactions with_approved with_payee_id
         with_category new_transaction find sub_memo sub_amount];
    rewrite ?Hx; reflexivity.
Qed.

Lemma replay_reads_stock_leg_witness :
  exists e : Transaction,
    In e (snd (classify Samples.env (Samples.fetched [])
                 (Samples.source MarketBuy (of_Z (-1005000)) (Some (of_Z 5000)))))
    /\ transactionAmount e = Some (of_Z (-1000000)).
Proof.
  assert (H : exists e : Transaction,
             In e (snd (classify Samples.env (Samples.fetched [])
                          (Samples.source MarketBuy (of_Z (-1005000))
                             (Some (of_Z 5000)))))).
  { vm_compute. eexists. left. reflexivity. }
  destruct H as [e H]. exists e. split; [exact H|].
  exact (replay_reads_stock_leg Samples.env (Samples.fetched [])
           (Samples.source MarketBuy (of_Z (-1005000)) (Some (of_Z 5000))) e H eq_refl).
Defined.
